(** * Conversation-summary chains (mkt_conversation_summary.py)

    A shallow embedding of
    [source/lambda/executor/utils/llm_utils/llm_chains/mkt_conversation_summary.py]
    and the properties of its prompt construction, chain composition and
    output formatting.

    Conventions.
    - A Python [str] is represented by its UTF-8 encoding, a [string] of
      bytes.  Encoding is an injective monoid morphism, so equality and
      concatenation of [str] values are equality and concatenation of their
      encodings.
    - A Python exception is a value of type [exn]; code that may raise
      returns [result A = exn + A].  [assert] statements are executed (the
      interpreter does not run with [-O]).
    - A request (the dict a chain is invoked with) is a [gmap string value].
    - A chain is run with [invoke]: a [Runnable] maps its input and the
      state of the outside world to a result and a new state.
    - Names imported from modules that are not part of this file
      ([HUMAN_MESSAGE_TYPE], [CHIT_CHAT_SYSTEM_TEMPLATE], [build_prompt],
      the inherited [create_chain]s) are [Variable]s of a section;
      [build_prompt] is a function of its three arguments.
    - The code is embedded twice: on values ([_create_prompt],
      [create_chain]), where lists and dicts are values, and on an object
      store ([Store._create_prompt]), where they are objects reached through
      references.  [store_create_prompt_refines] relates the two. *)

From Stdlib Require Import DecimalString.
From stdpp Require Import gmap strings list fin_maps.

Local Open Scope string_scope.

(** ** Strings *)

(** The newline character, written [\n] in the Python source. *)
Definition nl : string := String (Ascii.ascii_of_nat 10) EmptyString.

(** [str(n)] for a non-negative [int], as an f-string field [{n}] renders it. *)
Definition str_of_nat (n : nat) : string :=
  NilEmpty.string_of_uint (Nat.to_uint n).

(** ** Messages, exceptions and results *)

(** A conversation message: the two attributes the module reads. *)
Record Message := mkMessage { type : string; content : string }.

Inductive exn :=
| AssertionError (payload : list Message)
| IndexError
| KeyError (key : string)
| AttributeError (name : string)
| TypeError.

Definition result (A : Type) : Type := exn + A.

Abbreviation ok := (@inr exn _).
Abbreviation raise := (@inl exn _).

Definition rbind {A B} (m : result A) (k : A -> result B) : result B :=
  match m with
  | inl e => inl e
  | inr a => k a
  end.

Declare Scope result_scope.
Delimit Scope result_scope with result.
Notation "x <- m ;;; k" := (rbind m (fun x => k))
  (at level 100, m at next level, right associativity) : result_scope.
Notation "'ASSERT' b 'ELSE' p ;;; k" :=
  (if b then k else raise (AssertionError p))
  (at level 100, b at next level, p at next level, right associativity)
  : result_scope.
Local Open Scope result_scope.

(** [l[i]] on a Python list: [IndexError] when [i] is out of range. *)
Definition getitem {A} (l : list A) (i : nat) : result A :=
  match l !! i with
  | Some a => ok a
  | None => raise IndexError
  end.

(** [range(start, stop, step)] for a positive [step]. *)
Definition range (start stop step : nat) : list nat :=
  (fun k => start + k * step) <$> seq 0 ((stop - start + step - 1) / step).

(** A [for] loop whose body may raise: the bodies run in order and the first
    exception ends the loop. *)
Fixpoint for_each {S I} (body : S -> I -> result S) (items : list I) (s : S)
  : result S :=
  match items with
  | [] => ok s
  | i :: rest => s' <- body s i ;;; for_each body rest s'
  end.

(** [enumerate(l)]. *)
Definition enumerate {A} (l : list A) : list (nat * A) :=
  zip (seq 0 (length l)) l.

(** ** Values held by a request *)

Inductive value :=
| VStr (s : string)
| VMessage (m : Message)
| VMessages (msgs : list Message)
| VPromptDict (prompt prefix : string)
| VStream (chunks : list string).

Abbreviation request := (gmap string value).

(** [x[key]] on a dict. *)
Definition dict_getitem (x : request) (key : string) : result value :=
  match x !! key with
  | Some v => ok v
  | None => raise (KeyError key)
  end.

(** The request carries the conversation as a list of messages; any other
    kind of value under [chat_history] is outside the modelled inputs and is
    answered with [TypeError]. *)
Definition as_messages (v : value) : result (list Message) :=
  match v with
  | VMessages msgs => ok msgs
  | _ => raise TypeError
  end.

(** [d['prompt']] and [d['prefix']] on the dict built by [_create_prompt]. *)
Definition prompt_dict_getitem (d : value) (key : string) : result value :=
  match d with
  | VPromptDict prompt prefix =>
      if String.eqb key "prompt" then ok (VStr prompt)
      else if String.eqb key "prefix" then ok (VStr prefix)
      else raise (KeyError key)
  | _ => raise TypeError
  end.

(** [a + b]: defined on two strings and on two lists. *)
Definition py_add (a b : value) : result value :=
  match a, b with
  | VStr s1, VStr s2 => ok (VStr (s1 +:+ s2))
  | VMessages l1, VMessages l2 => ok (VMessages (l1 ++ l2)%list)
  | _, _ => raise TypeError
  end.

(** The characters of a [str]: in the UTF-8 representation a character is a
    lead byte followed by its continuation bytes (those of the form
    [10xxxxxx], i.e. in [128, 192)). *)
Definition is_continuation (c : Ascii.ascii) : bool :=
  let n := Ascii.nat_of_ascii c in ((128 <=? n) && (n <? 192))%nat.

Fixpoint chars_aux (s : string) : string * list string :=
  match s with
  | EmptyString => (EmptyString, [])
  | String c rest =>
      let '(pending, acc) := chars_aux rest in
      if is_continuation c then (String c pending, acc)
      else (EmptyString, String c pending :: acc)
  end.

Definition chars (s : string) : list string :=
  let '(pending, acc) := chars_aux s in
  match pending with
  | EmptyString => acc
  | _ => pending :: acc
  end.

(** The items [iter(v)] produces, in order. *)
Definition py_iter (v : value) : result (list value) :=
  match v with
  | VStr s => ok (VStr <$> chars s)
  | VMessage _ => raise TypeError
  | VMessages msgs => ok (VMessage <$> msgs)
  | VPromptDict _ _ => ok [VStr "prompt"; VStr "prefix"]
  | VStream chunks => ok (VStr <$> chunks)
  end.

(** ** Keyword arguments and classes *)

(** A keyword-argument value; [KFloat m e] is the decimal literal
    [m * 10^e], so [0.1] is [KFloat 1 (-1)]. *)
Inductive kwval :=
| KBool (b : bool)
| KInt (z : Z)
| KFloat (mantissa exponent : Z)
| KStr (s : string).

Abbreviation kwargs_t := (gmap string kwval).

(** Truth value of a keyword argument in [if stream:]. *)
Definition truthy (v : kwval) : bool :=
  match v with
  | KBool b => b
  | KInt z => negb (z =? 0)%Z
  | KFloat m _ => negb (m =? 0)%Z
  | KStr s => negb (String.eqb s "")
  end.

(** The class attributes of a chain class. *)
Record ChainClass := mkChainClass {
  model_id : string;
  intent_type : string;
  default_model_kwargs : kwargs_t
}.

(** ** Generators *)

(** The generator object made by [stream_postprocess_fn(x)].  It is lazy:
    nothing of the body runs before the first [next]. *)
Inductive generator :=
| GenCreated (x : request)
| GenAfterPrefix (x : request)
| GenDelegating (rest : list value)
| GenClosed.

(** What a chain returns: a value, or a generator object. *)
Inductive output :=
| OutValue (v : value)
| OutGenerator (g : generator).

(** ** Runnables *)

Section Runnables.
(** [W] is the state of the outside world that model invocations act on. *)
Context {W : Type}.

Definition Runnable (I O : Type) : Type := I -> W -> result O * W.

(** [RunnableLambda(f)] for a function without effects on [W]. *)
Definition RunnableLambda {I O} (f : I -> result O) : Runnable I O :=
  fun x w => (f x, w).

(** [first | second]. *)
Definition pipe {I X O} (first : Runnable I X) (second : Runnable X O)
  : Runnable I O :=
  fun x w =>
    match first x w with
    | (inl e, w') => (inl e, w')
    | (inr y, w') => second y w'
    end.

(** The new keys of [RunnablePassthrough.assign(k1=f1, ...)], each computed
    from the same input. *)
Fixpoint assign_fields (fields : list (string * Runnable request value))
  : Runnable request (list (string * value)) :=
  fun x w =>
    match fields with
    | [] => (ok [], w)
    | (k, f) :: rest =>
        match f x w with
        | (inl e, w') => (inl e, w')
        | (inr v, w') =>
            match assign_fields rest x w' with
            | (inl e, w'') => (inl e, w'')
            | (inr kvs, w'') => (ok ((k, v) :: kvs), w'')
            end
        end
    end.

(** [RunnablePassthrough.assign(k1=f1, ...)]: the input dict is copied and
    the new keys are written over the copy, [{**x, **new}]. *)
Definition RunnablePassthrough_assign
    (fields : list (string * Runnable request value))
  : Runnable request request :=
  fun x w =>
    match assign_fields fields x w with
    | (inl e, w') => (inl e, w')
    | (inr kvs, w') =>
        (ok (foldl (fun m kv => <[kv.1 := kv.2]> m) x kvs), w')
    end.
(** A runnable instrumented with a counter of its invocations. *)
Definition counted {I O} (f : Runnable I O) : I -> W * nat -> result O * (W * nat) :=
  fun x wn => let '(r, w') := f x wn.1 in (r, (w', S wn.2)).
End Runnables.

(** ** Prompt texts *)

(** Lines 37-39: the numbered list of the questions. *)
Definition questions_str_of (questions : list string) : string :=
  foldl (fun acc iq =>
           acc +:+ ("问题" +:+ str_of_nat (iq.1 + 1) +:+ ": " +:+ iq.2 +:+ nl))
        "" (enumerate questions).

(** Line 41. *)
Definition query_input : string :=
  "请总结上述对话中的内容,每一轮对话单独一个总结。" +:+ nl.

(** Line 47, with the number of pairs [n] and the numbered questions. *)
Definition prompt_assist_of (n : nat) (questions_str : string) : string :=
  "好的，根据提供历史对话信息，共有" +:+ str_of_nat n
    +:+ "段对话:" +:+ nl +:+ questions_str +:+ nl
    +:+ "对它们的总结如下(每一个总结要先复述一下问题):" +:+ nl.

(** Line 48. *)
Definition prefix_of (question : string) : string :=
  "问题1: " +:+ question +:+ nl +:+ "总结:".

(** Line 92. *)
Definition Claude2_query_input : string :=
  "请简要总结上述对话中的内容,每一个对话单独一个总结，并用 '- '开头。 每一个总结要先说明问题。"
    +:+ nl.

(** [''.join(chunks)]. *)
Definition join (chunks : list string) : string :=
  foldr String.append "" chunks.

(** The contents of a paired history, question then answer, in order. *)
Definition flatten_pairs (history : list (string * string)) : list string :=
  concat ((fun qa => [qa.1; qa.2]) <$> history).

(** ** The object store

    The same code at the level of Python objects: lists, dicts and messages
    live in a store and are reached through references, so that two names
    can denote one object and an update through one is seen through the
    other.  Strings and tuples are immutable values. *)

Module Store.

Definition loc := positive.

Inductive pyval :=
| PStr (s : string)
| PTuple2 (a b : pyval)
| PRef (l : loc).

Inductive pyobj :=
| OList (items : list pyval)
| ODict (entries : gmap string pyval)
| OMessage (m : Message).

Abbreviation store := (gmap loc pyobj).

(** A computation on the store that may raise. *)
Definition ST (A : Type) : Type := store -> result A * store.

Definition ret {A} (a : A) : ST A := fun h => (ok a, h).
Definition fail {A} (e : exn) : ST A := fun h => (raise e, h).
Definition bind {A B} (c : ST A) (k : A -> ST B) : ST B :=
  fun h =>
    match c h with
    | (inl e, h') => (inl e, h')
    | (inr a, h') => k a h'
    end.

Declare Scope st_scope.
Delimit Scope st_scope with st.
Notation "x <~ c ;;; k" := (bind c (fun x => k))
  (at level 100, c at next level, right associativity) : st_scope.
Notation "c ;;;; k" := (bind c (fun _ => k))
  (at level 100, right associativity) : st_scope.
Local Open Scope st_scope.

(** A new object gets a location no object of the store has. *)
Definition alloc (o : pyobj) : ST pyval :=
  fun h => let l := fresh (dom h) in (ok (PRef l), <[l := o]> h).

(** The object a value refers to.  Only references are dereferenced; a
    string or tuple where an object is expected is a [TypeError]. *)
Definition deref (v : pyval) : ST pyobj :=
  fun h =>
    match v with
    | PRef l =>
        match h !! l with
        | Some o => (ok o, h)
        | None => (raise TypeError, h)
        end
    | _ => (raise TypeError, h)
    end.

Definition dict_getitem (d : pyval) (key : string) : ST pyval :=
  o <~ deref d ;;;
  match o with
  | ODict entries =>
      match entries !! key with
      | Some v => ret v
      | None => fail (KeyError key)
      end
  | _ => fail TypeError
  end.

Definition len (v : pyval) : ST nat :=
  o <~ deref v ;;;
  match o with
  | OList items => ret (length items)
  | ODict entries => ret (size entries)
  | OMessage _ => fail TypeError
  end.

Definition list_items (v : pyval) : ST (list pyval) :=
  o <~ deref v ;;;
  match o with
  | OList items => ret items
  | _ => fail TypeError
  end.

Definition list_getitem (v : pyval) (i : nat) : ST pyval :=
  items <~ list_items v ;;;
  match items !! i with
  | Some a => ret a
  | None => fail IndexError
  end.

(** [lst.append(v)]: the list object is updated in place. *)
Definition append (lst : pyval) (v : pyval) : ST unit :=
  fun h =>
    match lst with
    | PRef l =>
        match h !! l with
        | Some (OList items) => (ok tt, <[l := OList (items ++ [v])]> h)
        | _ => (raise TypeError, h)
        end
    | _ => (raise TypeError, h)
    end.

Definition getattr_type (v : pyval) : ST string :=
  o <~ deref v ;;;
  match o with
  | OMessage m => ret (type m)
  | _ => fail (AttributeError "type")
  end.

Definition getattr_content (v : pyval) : ST string :=
  o <~ deref v ;;;
  match o with
  | OMessage m => ret (content m)
  | _ => fail (AttributeError "content")
  end.

(** The messages a list object holds, for the payload of an assertion. *)
Definition snapshot (v : pyval) (h : store) : list Message :=
  match v with
  | PRef l =>
      match h !! l with
      | Some (OList items) =>
          omap (fun item =>
                  match item with
                  | PRef l' =>
                      match h !! l' with
                      | Some (OMessage m) => Some m
                      | _ => None
                      end
                  | _ => None
                  end) items
      | _ => []
      end
  | _ => []
  end.

(** [assert cond, payload]. *)
Definition assert (cond : bool) (payload : pyval) : ST unit :=
  fun h => if cond then (ok tt, h)
           else (raise (AssertionError (snapshot payload h)), h).

Fixpoint for_each {I} (body : I -> ST unit) (items : list I) : ST unit :=
  match items with
  | [] => ret tt
  | i :: rest => body i ;;;; for_each body rest
  end.

Definition as_str (v : pyval) : result string :=
  match v with
  | PStr s => ok s
  | _ => raise TypeError
  end.

Definition as_pair (v : pyval) : result (string * string) :=
  match v with
  | PTuple2 (PStr a) (PStr b) => ok (a, b)
  | _ => raise TypeError
  end.

(** Read a list of results, stopping at the first exception. *)
Fixpoint sequence {A} (l : list (result A)) : result (list A) :=
  match l with
  | [] => ok []
  | r :: rest => (a <- r ;;; l' <- sequence rest ;;; ok (a :: l'))%result
  end.

Definition lift {A} (r : result A) : ST A := fun h => (r, h).

Section Code.
Variables HUMAN_MESSAGE_TYPE AI_MESSAGE_TYPE : string.
Variable CHIT_CHAT_SYSTEM_TEMPLATE : string.
Variable build_prompt : string -> list (string * string) -> string -> string.

(** The body of the pairing loop, lines 32-35, statement by statement. *)
Definition pair_step (chat_history history questions : pyval) (i : nat)
  : ST unit :=
  m <~ list_getitem chat_history i ;;;
  t <~ getattr_type m ;;;
  assert (String.eqb t HUMAN_MESSAGE_TYPE) chat_history ;;;;
  m <~ list_getitem chat_history (i + 1) ;;;
  t <~ getattr_type m ;;;
  assert (String.eqb t AI_MESSAGE_TYPE) chat_history ;;;;
  m <~ list_getitem chat_history i ;;;
  c <~ getattr_content m ;;;
  append questions (PStr c) ;;;;
  m <~ list_getitem chat_history i ;;;
  c0 <~ getattr_content m ;;;
  m <~ list_getitem chat_history (i + 1) ;;;
  c1 <~ getattr_content m ;;;
  append history (PTuple2 (PStr c0) (PStr c1)).

(** [_create_prompt(x)], [x] a reference to the request dict; the result
    is a reference to the dict it builds. *)
Definition _create_prompt (x : pyval) : ST pyval :=
  chat_history <~ dict_getitem x "chat_history" ;;;
  n <~ len chat_history ;;;
  assert (n mod 2 =? 0)%nat chat_history ;;;;
  history <~ alloc (OList []) ;;;
  questions <~ alloc (OList []) ;;;
  for_each (pair_step chat_history history questions) (range 0 n 2) ;;;;
  qs <~ list_items questions ;;;
  qs <~ lift (sequence (as_str <$> qs)) ;;;
  let questions_str := questions_str_of qs in
  hs <~ list_items history ;;;
  pairs <~ lift (sequence (as_pair <$> hs)) ;;;
  let prompt := build_prompt CHIT_CHAT_SYSTEM_TEMPLATE pairs query_input in
  n_history <~ len history ;;;
  let prompt_assist := prompt_assist_of n_history questions_str in
  question0 <~ list_getitem questions 0 ;;;
  question0 <~ lift (as_str question0) ;;;
  let prefix := prefix_of question0 in
  let prompt := prompt +:+ prompt_assist +:+ prefix in
  alloc (ODict {[ "prompt" := PStr prompt; "prefix" := PStr prefix ]}).
End Code.

(** [RunnablePassthrough.assign(query=lambda x: query_input)] on a request
    dict: a new dict [{**x, 'query': query_input}]; [x] is not written. *)
Definition assign_query (x : pyval) : ST pyval :=
  o <~ deref x ;;;
  match o with
  | ODict entries => alloc (ODict (<["query" := PStr Claude2_query_input]> entries))
  | _ => fail TypeError
  end.

(** [Claude2MKTConversationSummaryChain]'s chain: the assignment of
    [query], then the inherited chain. *)
Definition Claude2_chain (inherited : pyval -> ST pyval) (x : pyval)
  : ST pyval :=
  x' <~ assign_query x ;;; inherited x'.

(** [keeps h0 c Q]: run from a store that holds every object of [h0] as it
    is in [h0], the computation [c] ends, whether it returns or raises, in a
    store that still does; and when it returns [a] in store [h'], [Q a h']. *)
Definition keeps {A} (h0 : store) (c : ST A) (Q : A -> store -> Prop) : Prop :=
  forall h, h0 ⊆ h ->
    match c h with
    | (inr a, h') => h0 ⊆ h' /\ Q a h'
    | (inl _, h') => h0 ⊆ h'
    end.

Definition frames {A} (h0 : store) (c : ST A) : Prop :=
  keeps h0 c (fun _ _ => True).

(** A computation that never writes the store. *)
Definition reads {A} (c : ST A) : Prop := forall h, (c h).2 = h.

(** [v] refers to a list object whose items refer, in order, to message
    objects that hold [msgs]. *)
Definition holds_messages (h : store) (v : pyval) (msgs : list Message) : Prop :=
  exists l locs,
    v = PRef l
    /\ h !! l = Some (OList (PRef <$> locs))
    /\ Forall2 (fun l' m => h !! l' = Some (OMessage m)) locs msgs.

(** The tuple object of a pair of the history. *)
Definition tuple_of (qa : string * string) : pyval :=
  PTuple2 (PStr qa.1) (PStr qa.2).

(** The store while the pairing loop runs: the objects of [h0] as they were,
    and the two lists of the loop, at [lh] and [lq], holding the pairs [H]
    and the questions [Q] gathered so far. *)
Definition loop_store (h0 : store) (lh lq : loc) (h : store)
    (H : list (string * string)) (Q : list string) : Prop :=
  h0 ⊆ h
  /\ h !! lh = Some (OList (tuple_of <$> H))
  /\ h !! lq = Some (OList (PStr <$> Q)).

End Store.

(** ** The inherited chat chain of the Claude family *)

Section HostedBase.
Context {W : Type}.

(** The model-invocation collaborator: it is given the model identifier, the
    generation parameters and the request the prompt is rendered from. *)
Variable invoke_model : string -> kwargs_t -> Runnable (W:=W) request output.

(** Modelled from the spec: [Claude2ChatChain.create_chain], of
    [chat_chain.py], which is not among the sources.  The specification has
    the chain invoke the model with the generation parameters of the
    variant, which are the defaults of the class unless explicitly
    overridden: an override wins and every other default is kept. *)
Definition spec_Claude2ChatChain_create_chain (cls : ChainClass)
    (model_kwargs : option kwargs_t) (kwargs : kwargs_t)
  : Runnable (W:=W) request output :=
  invoke_model (model_id cls) (default ∅ model_kwargs ∪ default_model_kwargs cls).

End HostedBase.

(** ** Collaborators and data of the examples *)

Definition Human (s : string) : Message := mkMessage "human" s.
Definition AI (s : string) : Message := mkMessage "ai" s.

Definition example_history : list Message :=
  [Human "A?"; AI "B."; Human "C?"; AI "D."].

Definition odd_history : list Message := [Human "A?"; AI "B."; Human "C?"].

(** A chat-template renderer in the place of [build_prompt]. *)
Definition example_build_prompt (meta_instruction : string)
    (history : list (string * string)) (query : string) : string :=
  "<|system|>" +:+ meta_instruction
    +:+ foldr (fun qa acc => "<|user|>" +:+ qa.1 +:+ "<|assistant|>" +:+ qa.2 +:+ acc)
          "" history
    +:+ "<|user|>" +:+ query +:+ "<|assistant|>".

(** A model step that counts its invocations and answers [reply]. *)
Definition counting_stub (reply : value)
  : ChainClass -> kwargs_t -> kwargs_t -> Runnable (W:=nat) request value :=
  fun _ _ _ _ calls => (ok reply, S calls).

(** A model step that answers the chunks "foo", "bar" when the chain is built
    with streaming, and the text "foobar" otherwise. *)
Definition mode_stub
  : ChainClass -> kwargs_t -> kwargs_t -> Runnable (W:=nat) request value :=
  fun _ _ kwargs _ calls =>
    if from_option truthy false (kwargs !! "stream")
    then (ok (VStream ["foo"; "bar"]), S calls)
    else (ok (VStr "foobar"), S calls).

(** A model step that raises. *)
Definition failing_stub (e : exn)
  : ChainClass -> kwargs_t -> kwargs_t -> Runnable (W:=nat) request value :=
  fun _ _ _ _ calls => (raise e, S calls).

(** A store with a request dict at 1, whose history is the list at 2 of the
    messages at 3 and 4. *)
Definition example_store : Store.store :=
  {[ 1%positive := Store.ODict {[ "chat_history" := Store.PRef 2%positive;
                                  "query" := Store.PStr "supplied" ]};
     2%positive := Store.OList [Store.PRef 3%positive; Store.PRef 4%positive];
     3%positive := Store.OMessage (Human "A?");
     4%positive := Store.OMessage (AI "B.") ]}.

(** ** The chains of the module *)

Section Chains.
Context {W : Type}.

(** Imported names: message-type and intent constants ([constant.py]), the
    system template ([prompt_template.py]), and what the chains inherit
    from [chat_chain.py]. *)
Variables HUMAN_MESSAGE_TYPE AI_MESSAGE_TYPE : string.
Variable MKT_CONVERSATION_SUMMARY_TYPE : string.
Variable CHIT_CHAT_SYSTEM_TEMPLATE : string.
(** [Iternlm2Chat7BChatChain.build_prompt(meta_instruction, history, query)]. *)
Variable build_prompt : string -> list (string * string) -> string -> string.
Variable Iternlm2Chat7BChatChain_default_model_kwargs : kwargs_t.
(** [Iternlm2Chat7BChatChain.create_chain(cls, model_kwargs, **kwargs)]. *)
Variable Iternlm2Chat7BChatChain_create_chain :
  ChainClass -> kwargs_t -> kwargs_t -> Runnable (W:=W) request value.
(** [Claude2ChatChain.create_chain(cls, model_kwargs, **kwargs)]. *)
Variable Claude2ChatChain_create_chain :
  ChainClass -> option kwargs_t -> kwargs_t -> Runnable (W:=W) request output.

(** *** class Iternlm2Chat7BMKTConversationSummaryChain *)

Definition Iternlm2Chat7BMKTConversationSummaryChain : ChainClass :=
  {| model_id := "internlm2-chat-7b";
     intent_type := MKT_CONVERSATION_SUMMARY_TYPE;
     default_model_kwargs := Iternlm2Chat7BChatChain_default_model_kwargs |}.

Definition create_prompt (x : request) : result value :=
  dict_getitem x "prompt".

(** One turn of the pairing loop (lines 32-35), at index [i].  The list is
    not changed between its reads, so [chat_history[i]] and
    [chat_history[i+1]] are each read once. *)
Definition pair_step (chat_history : list Message)
    (st : list (string * string) * list string) (i : nat)
  : result (list (string * string) * list string) :=
  let '(history, questions) := st in
  human <- getitem chat_history i ;;;
  ASSERT String.eqb (type human) HUMAN_MESSAGE_TYPE ELSE chat_history ;;;
  ai <- getitem chat_history (i + 1) ;;;
  ASSERT String.eqb (type ai) AI_MESSAGE_TYPE ELSE chat_history ;;;
  let questions := (questions ++ [content human])%list in
  let history := (history ++ [(content human, content ai)])%list in
  ok (history, questions).

(** Lines 27-35: the length check and the pairing loop; the result is
    [(history, questions)]. *)
Definition pair_history (chat_history : list Message)
  : result (list (string * string) * list string) :=
  ASSERT (length chat_history mod 2 =? 0)%nat ELSE chat_history ;;;
  for_each (pair_step chat_history) (range 0 (length chat_history) 2) ([], []).

Definition _create_prompt (x : request) : result value :=
  v <- dict_getitem x "chat_history" ;;;
  chat_history <- as_messages v ;;;
  hq <- pair_history chat_history ;;;
  let '(history, questions) := hq in
  let questions_str := questions_str_of questions in
  let prompt := build_prompt CHIT_CHAT_SYSTEM_TEMPLATE history query_input in
  let prompt_assist := prompt_assist_of (length history) questions_str in
  question0 <- getitem questions 0 ;;;
  let prefix := prefix_of question0 in
  let prompt := prompt +:+ prompt_assist +:+ prefix in
  ok (VPromptDict prompt prefix).

(** Calling the generator function only creates the generator object. *)
Definition stream_postprocess_fn (x : request) : generator := GenCreated x.

(** [next(g)]: run the body up to its next [yield].  [ok None] stands for
    [StopIteration]. *)
Definition next (g : generator) : result (option value) * generator :=
  match g with
  | GenCreated x =>
      match dict_getitem x "prefix" with
      | inl e => (inl e, GenClosed)
      | inr v => (ok (Some v), GenAfterPrefix x)
      end
  | GenAfterPrefix x =>
      match (v <- dict_getitem x "llm_output" ;;; py_iter v) with
      | inl e => (inl e, GenClosed)
      | inr [] => (ok None, GenClosed)
      | inr (c :: rest) => (ok (Some c), GenDelegating rest)
      end
  | GenDelegating [] => (ok None, GenClosed)
  | GenDelegating (c :: rest) => (ok (Some c), GenDelegating rest)
  | GenClosed => (ok None, GenClosed)
  end.

(** [list(g)]: call [next] until [StopIteration]; [None] when [fuel] calls
    were not enough. *)
Fixpoint consume (fuel : nat) (g : generator) : option (result (list value)) :=
  match fuel with
  | 0 => None
  | S fuel' =>
      match next g with
      | (inl e, _) => Some (raise e)
      | (inr None, _) => Some (ok [])
      | (inr (Some v), g') =>
          match consume fuel' g' with
          | Some (inr l) => Some (ok (v :: l))
          | other => other
          end
      end
  end.

Definition create_chain (cls : ChainClass) (model_kwargs : option kwargs_t)
    (kwargs : kwargs_t) : Runnable (W:=W) request output :=
  let model_kwargs := default ∅ model_kwargs in
  let stream := from_option truthy false (kwargs !! "stream") in
  let llm_chain := Iternlm2Chat7BChatChain_create_chain cls model_kwargs kwargs in
  let chain :=
    pipe (pipe
      (RunnablePassthrough_assign
         [("prompt_dict", RunnableLambda _create_prompt)])
      (RunnablePassthrough_assign
         [("prompt", RunnableLambda (fun x =>
             d <- dict_getitem x "prompt_dict" ;;; prompt_dict_getitem d "prompt"));
          ("prefix", RunnableLambda (fun x =>
             d <- dict_getitem x "prompt_dict" ;;; prompt_dict_getitem d "prefix"))]))
      (RunnablePassthrough_assign [("llm_output", llm_chain)]) in
  if stream then
    pipe chain (RunnableLambda (fun x => ok (OutGenerator (stream_postprocess_fn x))))
  else
    pipe chain (RunnableLambda (fun x =>
      a <- dict_getitem x "prefix" ;;;
      b <- dict_getitem x "llm_output" ;;;
      s <- py_add a b ;;;
      ok (OutValue s))).

(** *** class Iternlm2Chat20BMKTConversationSummaryChain *)

Definition Iternlm2Chat20BMKTConversationSummaryChain : ChainClass :=
  {| model_id := "internlm2-chat-20b";
     intent_type := intent_type Iternlm2Chat7BMKTConversationSummaryChain;
     default_model_kwargs :=
       default_model_kwargs Iternlm2Chat7BMKTConversationSummaryChain |}.

(** *** class Claude2MKTConversationSummaryChain *)

Definition Claude2MKTConversationSummaryChain : ChainClass :=
  {| model_id := "anthropic.claude-v2";
     intent_type := MKT_CONVERSATION_SUMMARY_TYPE;
     default_model_kwargs :=
       {[ "max_tokens_to_sample" := KInt 2000;
          "temperature" := KFloat 1 (-1);
          "top_p" := KFloat 9 (-1) ]} |}.

Definition Claude2_create_chain (cls : ChainClass)
    (model_kwargs : option kwargs_t) (kwargs : kwargs_t)
  : Runnable (W:=W) request output :=
  let chain := Claude2ChatChain_create_chain cls model_kwargs kwargs in
  pipe (RunnablePassthrough_assign
          [("query", RunnableLambda (fun _ => ok (VStr Claude2_query_input)))])
       chain.

(** *** class Claude21MKTConversationSummaryChain *)

Definition Claude21MKTConversationSummaryChain : ChainClass :=
  {| model_id := "anthropic.claude-v2:1";
     intent_type := intent_type Claude2MKTConversationSummaryChain;
     default_model_kwargs :=
       default_model_kwargs Claude2MKTConversationSummaryChain |}.

(** *** class ClaudeInstanceMKTConversationSummaryChain *)

Definition ClaudeInstanceMKTConversationSummaryChain : ChainClass :=
  {| model_id := "anthropic.claude-instant-v1";
     intent_type := intent_type Claude2MKTConversationSummaryChain;
     default_model_kwargs :=
       default_model_kwargs Claude2MKTConversationSummaryChain |}.

(** *** Vocabulary of the statements *)

(** The messages alternate human, assistant, human, ... from index 0. *)
Definition alternates (h : list Message) : Prop :=
  forall i m, h !! i = Some m ->
    type m = if Nat.even i then HUMAN_MESSAGE_TYPE else AI_MESSAGE_TYPE.

(** The history breaks one of the three conditions of the validator. *)
Definition malformed (h : list Message) : Prop :=
  Nat.Odd (length h)
  \/ (exists i m, h !! i = Some m /\ Nat.Even i /\ type m <> HUMAN_MESSAGE_TYPE)
  \/ (exists i m, h !! i = Some m /\ Nat.Odd i /\ type m <> AI_MESSAGE_TYPE).

(** The [k]-th pair of the history passes both assertions of the loop. *)
Definition pair_ok (h : list Message) (k : nat) : bool :=
  match h !! (2 * k), h !! (2 * k + 1) with
  | Some q, Some a =>
      String.eqb (type q) HUMAN_MESSAGE_TYPE && String.eqb (type a) AI_MESSAGE_TYPE
  | _, _ => false
  end.

Definition content_at (h : list Message) (i : nat) : string :=
  from_option content "" (h !! i).

(** The pairs and the questions, read off the history by index. *)
Definition pairs_of (h : list Message) : list (string * string) :=
  (fun k => (content_at h (2 * k), content_at h (2 * k + 1)))
    <$> seq 0 (length h / 2).

Definition questions_of (h : list Message) : list string :=
  (fun k => content_at h (2 * k)) <$> seq 0 (length h / 2).

(** The numbered list as the specification words it: one line
    "问题k: question" per question, numbered from [k]. *)
Fixpoint numbered_from (k : nat) (questions : list string) : string :=
  match questions with
  | [] => ""
  | q :: rest =>
      "问题" +:+ str_of_nat k +:+ ": " +:+ q +:+ nl +:+ numbered_from (S k) rest
  end.

(** The prompt of a history whose first message is [first]. *)
Definition prompt_of (h : list Message) (first : Message) : string :=
  build_prompt CHIT_CHAT_SYSTEM_TEMPLATE (pairs_of h) query_input
    +:+ prompt_assist_of (length h / 2) (numbered_from 1 (questions_of h))
    +:+ prefix_of (content first).

(** The request the model step of [create_chain] is run on, after the two
    assignments that precede it. *)
Definition llm_input (x : request) (prompt prefix : string) : request :=
  <["prefix" := VStr prefix]>
    (<["prompt" := VStr prompt]>
       (<["prompt_dict" := VPromptDict prompt prefix]> x)).

(** ** Properties *)

(** *** Results and ranges *)

Lemma range_0_2 (n : nat) :
  range 0 n 2 = (fun k => 2 * k) <$> seq 0 ((n + 1) / 2).
Proof.
  unfold range.
  replace (n - 0 + 2 - 1) with (n + 1) by lia.
  apply list_fmap_ext. intros _ k _. lia.
Qed.

Lemma range_0_2_even (p : nat) :
  range 0 (2 * p) 2 = (fun k => 2 * k) <$> seq 0 p.
Proof.
  rewrite range_0_2. f_equal. f_equal.
  replace (2 * p + 1) with (1 + p * 2) by lia.
  rewrite Nat.div_add by lia. reflexivity.
Qed.

Lemma even_length_half (h : list Message) :
  Nat.Even (length h) -> length h = 2 * (length h / 2).
Proof.
  intros [p Hp]. rewrite Hp at 2.
  replace (2 * p) with (p * 2) by lia. rewrite Nat.div_mul by lia. lia.
Qed.

Lemma even_length_mod (h : list Message) :
  Nat.Even (length h) -> (length h mod 2 =? 0)%nat = true.
Proof.
  intros [p Hp]. apply Nat.eqb_eq. rewrite Hp.
  replace (2 * p) with (p * 2) by lia. apply Nat.Div0.mod_mul.
Qed.

Lemma odd_length_mod (h : list Message) :
  Nat.Odd (length h) -> (length h mod 2 =? 0)%nat = false.
Proof.
  intros [p Hp]. apply Nat.eqb_neq. rewrite Hp.
  replace (2 * p + 1) with (1 + p * 2) by lia.
  rewrite Nat.Div0.mod_add. cbn. lia.
Qed.

(** *** The pairing loop *)

(** One turn of the loop on a pair that is inside the list. *)
Lemma pair_step_inside (h : list Message) H Q k :
  2 * k + 1 < length h ->
  pair_step h (H, Q) (2 * k) =
    if pair_ok h k
    then ok (H ++ [(content_at h (2 * k), content_at h (2 * k + 1))],
             Q ++ [content_at h (2 * k)])%list
    else raise (AssertionError h).
Proof.
  intros Hlt.
  destruct (lookup_lt_is_Some_2 h (2 * k)) as [q Hq]; [lia|].
  destruct (lookup_lt_is_Some_2 h (2 * k + 1)) as [a Ha]; [lia|].
  unfold pair_step, pair_ok, getitem, content_at.
  rewrite Hq, Ha. cbn.
  destruct (String.eqb (type q) HUMAN_MESSAGE_TYPE); cbn; [|reflexivity].
  destruct (String.eqb (type a) AI_MESSAGE_TYPE); reflexivity.
Qed.

(** The loop over the pairs [a, a+n): it succeeds with the pairs appended in
    order when every pair passes, and raises otherwise. *)
Lemma pair_loop (h : list Message) n : forall a H Q,
  2 * (a + n) <= length h ->
  for_each (pair_step h) ((fun k => 2 * k) <$> seq a n) (H, Q) =
    if forallb (pair_ok h) (seq a n)
    then ok (H ++ ((fun k => (content_at h (2 * k), content_at h (2 * k + 1)))
                     <$> seq a n),
             Q ++ ((fun k => content_at h (2 * k)) <$> seq a n))%list
    else raise (AssertionError h).
Proof.
  induction n as [|n IH]; intros a H Q Hlen.
  - cbn. rewrite !app_nil_r. reflexivity.
  - change (seq a (S n)) with (a :: seq (S a) n).
    rewrite !fmap_cons. cbn [for_each forallb].
    rewrite pair_step_inside by lia.
    destruct (pair_ok h a); cbn [rbind andb]; [|reflexivity].
    rewrite IH by lia.
    destruct (forallb (pair_ok h) (seq (S a) n)); [|reflexivity].
    rewrite <- !app_assoc. reflexivity.
Qed.

(** [pair_history] in closed form. *)
Lemma pair_history_eq (h : list Message) :
  pair_history h =
    if (length h mod 2 =? 0)%nat && forallb (pair_ok h) (seq 0 (length h / 2))
    then ok (pairs_of h, questions_of h)
    else raise (AssertionError h).
Proof.
  unfold pair_history.
  destruct (length h mod 2 =? 0)%nat eqn:Hmod; [|reflexivity].
  apply Nat.eqb_eq in Hmod.
  assert (Hlen : length h = 2 * (length h / 2)).
  { pose proof (Nat.div_mod_eq (length h) 2). lia. }
  rewrite Hlen at 1. rewrite range_0_2_even.
  rewrite pair_loop by lia. cbn [andb]. reflexivity.
Qed.

Lemma alternates_pair_ok (h : list Message) k :
  alternates h -> 2 * k + 1 < length h -> pair_ok h k = true.
Proof.
  intros Halt Hlt.
  destruct (lookup_lt_is_Some_2 h (2 * k)) as [q Hq]; [lia|].
  destruct (lookup_lt_is_Some_2 h (2 * k + 1)) as [a Ha]; [lia|].
  unfold pair_ok. rewrite Hq, Ha.
  apply Halt in Hq. apply Halt in Ha.
  replace (Nat.even (2 * k)) with true in Hq
    by (symmetry; apply Nat.even_spec; exists k; lia).
  replace (Nat.even (2 * k + 1)) with false in Ha.
  2:{ symmetry. rewrite <- Nat.negb_odd. apply negb_false_iff.
      apply Nat.odd_spec. exists k; lia. }
  rewrite Hq, Ha, !String.eqb_refl. reflexivity.
Qed.

Lemma alternates_all_ok (h : list Message) :
  alternates h -> forallb (pair_ok h) (seq 0 (length h / 2)) = true.
Proof.
  intros Halt. apply forallb_forall. intros k Hk.
  apply in_seq in Hk. apply alternates_pair_ok; [assumption|].
  pose proof (Nat.div_mod_eq (length h) 2).
  pose proof (Nat.mod_upper_bound (length h) 2). lia.
Qed.

(** A good pair has a human message at the even index and an assistant
    message at the odd one. *)
Lemma pair_ok_types (h : list Message) k :
  pair_ok h k = true ->
  exists q a, h !! (2 * k) = Some q /\ h !! (2 * k + 1) = Some a
    /\ type q = HUMAN_MESSAGE_TYPE /\ type a = AI_MESSAGE_TYPE.
Proof.
  unfold pair_ok.
  destruct (h !! (2 * k)) as [q|]; [|discriminate].
  destruct (h !! (2 * k + 1)) as [a|]; [|discriminate].
  intros Hok. apply andb_true_iff in Hok as [Hq Ha].
  apply String.eqb_eq in Hq, Ha. eauto 6.
Qed.

Lemma all_ok_alternates (h : list Message) :
  Nat.Even (length h) ->
  forallb (pair_ok h) (seq 0 (length h / 2)) = true -> alternates h.
Proof.
  intros Heven Hall i m Hi.
  pose proof (lookup_lt_Some _ _ _ Hi) as Hlt.
  pose proof (even_length_half h Heven) as Hlen.
  assert (Hk : pair_ok h (i / 2) = true).
  { eapply forallb_forall; [exact Hall|]. apply in_seq.
    pose proof (Nat.div_mod_eq i 2). pose proof (Nat.mod_upper_bound i 2). lia. }
  destruct (pair_ok_types _ _ Hk) as (q & a & Hq & Ha & Htq & Hta).
  destruct (Nat.even i) eqn:Hev.
  - apply Nat.even_spec in Hev as [p ->].
    replace (2 * p / 2) with p in Hq by (rewrite Nat.mul_comm, Nat.div_mul; lia).
    congruence.
  - rewrite <- Nat.negb_odd in Hev. apply negb_false_iff in Hev.
    apply Nat.odd_spec in Hev as [p ->].
    replace ((2 * p + 1) / 2) with p in Ha.
    2:{ replace (2 * p + 1) with (1 + p * 2) by lia.
        rewrite Nat.div_add by lia. reflexivity. }
    congruence.
Qed.

Lemma malformed_not_passing (h : list Message) :
  malformed h ->
  (length h mod 2 =? 0)%nat && forallb (pair_ok h) (seq 0 (length h / 2)) = false.
Proof.
  intros Hbad.
  destruct (length h mod 2 =? 0)%nat eqn:Hmod; [|reflexivity]. cbn [andb].
  apply Nat.eqb_eq in Hmod.
  assert (Heven : Nat.Even (length h)).
  { exists (length h / 2). pose proof (Nat.div_mod_eq (length h) 2). lia. }
  destruct (forallb (pair_ok h) (seq 0 (length h / 2))) eqn:Hall; [|reflexivity].
  exfalso. pose proof (all_ok_alternates h Heven Hall) as Halt.
  destruct Hbad as [Hodd | [(i & m & Hi & Hev & Hty) | (i & m & Hi & Hod & Hty)]].
  - destruct Hodd as [p Hp]. destruct Heven as [p' Hp']. lia.
  - apply Hty. rewrite (Halt _ _ Hi).
    apply Nat.even_spec in Hev. rewrite Hev. reflexivity.
  - apply Hty. rewrite (Halt _ _ Hi).
    apply Nat.odd_spec in Hod. rewrite <- Nat.negb_odd, Hod. reflexivity.
Qed.

(** *** The numbered list of questions *)

Lemma append_nil_l (b : string) : "" +:+ b = b.
Proof. reflexivity. Qed.

Lemma append_cons (x : Ascii.ascii) (a b : string) :
  String x a +:+ b = String x (a +:+ b).
Proof. reflexivity. Qed.

Lemma append_assoc (a b c : string) : (a +:+ b) +:+ c = a +:+ (b +:+ c).
Proof.
  induction a as [|x a IH]; [reflexivity|].
  rewrite !append_cons. now rewrite IH.
Qed.

Lemma append_nil_r (a : string) : a +:+ "" = a.
Proof.
  induction a as [|x a IH]; [reflexivity|].
  rewrite append_cons. now rewrite IH.
Qed.

(** The accumulating loop of lines 37-39, started at any index and with any
    text already accumulated. *)
Lemma questions_loop (questions : list string) : forall k acc,
  foldl (fun acc iq =>
           acc +:+ ("问题" +:+ str_of_nat (iq.1 + 1) +:+ ": " +:+ iq.2 +:+ nl))
        acc (zip (seq k (length questions)) questions)
  = acc +:+ numbered_from (S k) questions.
Proof.
  induction questions as [|q rest IH]; intros k acc.
  - cbn. now rewrite append_nil_r.
  - cbn [length seq zip zip_with foldl numbered_from].
    rewrite IH. cbn [fst snd]. rewrite append_assoc.
    replace (k + 1) with (S k) by lia.
    rewrite !append_assoc. reflexivity.
Qed.

Lemma questions_str_numbered (questions : list string) :
  questions_str_of questions = numbered_from 1 questions.
Proof. unfold questions_str_of, enumerate. now rewrite questions_loop. Qed.

(** *** [_create_prompt] in closed form *)

Lemma length_pairs_of (h : list Message) : length (pairs_of h) = length h / 2.
Proof. unfold pairs_of. now rewrite length_fmap, length_seq. Qed.

Lemma length_questions_of (h : list Message) : length (questions_of h) = length h / 2.
Proof. unfold questions_of. now rewrite length_fmap, length_seq. Qed.

Lemma _create_prompt_eq (x : request) (h : list Message) :
  x !! "chat_history" = Some (VMessages h) ->
  _create_prompt x =
    if (length h mod 2 =? 0)%nat && forallb (pair_ok h) (seq 0 (length h / 2))
    then match h with
         | [] => raise IndexError
         | first :: _ => ok (VPromptDict (prompt_of h first) (prefix_of (content first)))
         end
    else raise (AssertionError h).
Proof.
  intros Hx. unfold _create_prompt, dict_getitem. rewrite Hx.
  cbn [rbind as_messages]. rewrite pair_history_eq.
  destruct (_ && _) eqn:Hpass; [|reflexivity].
  cbn [rbind]. rewrite questions_str_numbered, length_pairs_of.
  destruct h as [|first rest]; [reflexivity|].
  apply andb_true_iff in Hpass as [Hmod _]. apply Nat.eqb_eq in Hmod.
  destruct rest as [|second rest]; [discriminate Hmod|].
  unfold getitem, prompt_of.
  assert (Hq : questions_of (first :: second :: rest) !! 0 = Some (content first)).
  { unfold questions_of. cbn [length].
    replace (S (S (length rest))) with (1 * 2 + length rest) by lia.
    rewrite Nat.div_add_l by lia. reflexivity. }
  rewrite Hq. reflexivity.
Qed.

Lemma valid_passes (h : list Message) :
  Nat.Even (length h) -> alternates h ->
  (length h mod 2 =? 0)%nat && forallb (pair_ok h) (seq 0 (length h / 2)) = true.
Proof.
  intros Heven Halt. rewrite even_length_mod by assumption.
  now rewrite alternates_all_ok.
Qed.

Lemma _create_prompt_valid (x : request) (h : list Message) (first : Message) :
  x !! "chat_history" = Some (VMessages h) ->
  Nat.Even (length h) -> alternates h -> h !! 0 = Some first ->
  _create_prompt x = ok (VPromptDict (prompt_of h first) (prefix_of (content first))).
Proof.
  intros Hx Heven Halt Hfirst.
  rewrite (_create_prompt_eq x h Hx), valid_passes by assumption.
  destruct h; [discriminate|]. cbn in Hfirst. congruence.
Qed.

Lemma _create_prompt_malformed (x : request) (h : list Message) :
  x !! "chat_history" = Some (VMessages h) -> malformed h ->
  _create_prompt x = raise (AssertionError h).
Proof.
  intros Hx Hbad.
  now rewrite (_create_prompt_eq x h Hx), malformed_not_passing.
Qed.

(** *** The chain of [create_chain] *)

(** When prompt construction raises, the chain raises the same exception
    and the model step is not run. *)
Lemma create_chain_raises cls model_kwargs kwargs (x : request) (w : W) e :
  _create_prompt x = raise e ->
  create_chain cls model_kwargs kwargs x w = (raise e, w).
Proof.
  intros He. unfold create_chain.
  destruct (from_option truthy false (kwargs !! "stream"));
    unfold pipe, RunnablePassthrough_assign, assign_fields, RunnableLambda;
    rewrite He; reflexivity.
Qed.

(** When prompt construction succeeds, the model step is run once, on
    [llm_input], and its output is formatted. *)
Lemma create_chain_runs cls model_kwargs kwargs (x : request) (w : W) prompt prefix :
  _create_prompt x = ok (VPromptDict prompt prefix) ->
  create_chain cls model_kwargs kwargs x w =
    match Iternlm2Chat7BChatChain_create_chain cls (default ∅ model_kwargs) kwargs
            (llm_input x prompt prefix) w with
    | (inl e, w') => (inl e, w')
    | (inr v, w') =>
        if from_option truthy false (kwargs !! "stream")
        then (ok (OutGenerator
                    (stream_postprocess_fn
                       (<["llm_output" := v]> (llm_input x prompt prefix)))), w')
        else ((s <- py_add (VStr prefix) v ;;; ok (OutValue s)), w')
    end.
Proof.
  intros Hp. unfold create_chain.
  destruct (from_option truthy false (kwargs !! "stream"));
    unfold pipe, RunnablePassthrough_assign, assign_fields, RunnableLambda;
    rewrite Hp; cbn [foldl fst snd];
    unfold dict_getitem; rewrite lookup_insert_eq;
    cbn [rbind prompt_dict_getitem String.eqb Ascii.eqb Bool.eqb foldl fst snd];
    fold (llm_input x prompt prefix);
    destruct (Iternlm2Chat7BChatChain_create_chain cls (default ∅ model_kwargs)
                kwargs (llm_input x prompt prefix) w) as [[e|v] w'];
    try reflexivity; cbn [foldl fst snd].
  rewrite lookup_insert_ne by discriminate.
    unfold llm_input at 1. rewrite lookup_insert_eq. cbn [rbind].
    rewrite lookup_insert_eq. reflexivity.
Qed.

(** *** The generator of the streaming formatter *)

Lemma consume_delegating (items : list value) : forall fuel,
  length items < fuel ->
  consume fuel (GenDelegating items) = Some (ok items).
Proof.
  induction items as [|c rest IH]; intros fuel Hfuel.
  - destruct fuel; [cbn in Hfuel; lia | reflexivity].
  - destruct fuel; [cbn in Hfuel; lia|].
    cbn [consume next]. rewrite IH by (cbn in Hfuel; lia). reflexivity.
Qed.

Lemma consume_stream (x : request) (prefix : value) (chunks : list string) fuel :
  x !! "prefix" = Some prefix ->
  x !! "llm_output" = Some (VStream chunks) ->
  length chunks + 2 <= fuel ->
  consume fuel (stream_postprocess_fn x) = Some (ok (prefix :: (VStr <$> chunks))).
Proof.
  intros Hp Hout Hfuel.
  destruct fuel as [|fuel]; [lia|].
  unfold stream_postprocess_fn. cbn [consume next].
  unfold dict_getitem. rewrite Hp.
  destruct fuel as [|fuel]; [lia|].
  cbn [consume next]. unfold dict_getitem. rewrite Hout.
  cbn [rbind py_iter].
  destruct chunks as [|c rest]; [reflexivity|].
  rewrite fmap_cons.
  rewrite consume_delegating; [reflexivity|].
  rewrite length_fmap. cbn in Hfuel. lia.
Qed.

(** *** The claims *)

(** C1. For every even-length history whose messages alternate human then
    assistant, the pairing loop of [_create_prompt] succeeds; it yields
    [length h / 2] pairs and as many questions; the [i]-th pair is the
    content of message [2i] with the content of message [2i+1], and the
    [i]-th question is the content of message [2i]. *)
Theorem C1_pairing_keeps_order_and_content (h : list Message) :
  Nat.Even (length h) -> alternates h ->
  pair_history h = ok (pairs_of h, questions_of h)
  /\ length (pairs_of h) = length h / 2
  /\ length (questions_of h) = length h / 2
  /\ (forall i, i < length h / 2 ->
        exists q a,
          h !! (2 * i) = Some q /\ h !! (2 * i + 1) = Some a
          /\ pairs_of h !! i = Some (content q, content a)
          /\ questions_of h !! i = Some (content q)).
Proof.
  intros Heven Halt.
  split; [|split; [|split]].
  - now rewrite pair_history_eq, valid_passes.
  - apply length_pairs_of.
  - apply length_questions_of.
  - intros i Hi.
    pose proof (even_length_half h Heven) as Hlen.
    destruct (lookup_lt_is_Some_2 h (2 * i)) as [q Hq]; [lia|].
    destruct (lookup_lt_is_Some_2 h (2 * i + 1)) as [a Ha]; [lia|].
    exists q, a. split; [assumption|]. split; [assumption|].
    unfold pairs_of, questions_of, content_at.
    rewrite !list_lookup_fmap, !lookup_seq_lt by assumption.
    cbn [fmap option_fmap option_map Nat.add]. rewrite Hq, Ha. split; reflexivity.
Qed.

(** C2. When the history has odd length, or a message at an even index that
    is not human, or a message at an odd index that is not assistant, prompt
    construction raises the assertion error carrying the history, so no
    prompt dict is made; the chain raises the same error and leaves the
    state of the model collaborator as it was: the model step is not run. *)
Theorem C2_malformed_history_raises cls model_kwargs kwargs
    (x : request) (w : W) (h : list Message) :
  x !! "chat_history" = Some (VMessages h) ->
  malformed h ->
  _create_prompt x = raise (AssertionError h)
  /\ (forall prompt prefix, _create_prompt x <> ok (VPromptDict prompt prefix))
  /\ create_chain cls model_kwargs kwargs x w = (raise (AssertionError h), w).
Proof.
  intros Hx Hbad.
  pose proof (_create_prompt_malformed x h Hx Hbad) as Hraise.
  split; [assumption|]. split.
  - intros prompt prefix. rewrite Hraise. discriminate.
  - now apply create_chain_raises.
Qed.

(** C3, amended. For every even-length alternating history that has a first
    message, the prompt dict is made and its prefix is "问题1: ", then the
    content of the first message, then a newline and "总结:". *)
Theorem C3_prefix_restates_first_question
    (x : request) (h : list Message) (first : Message) :
  x !! "chat_history" = Some (VMessages h) ->
  Nat.Even (length h) -> alternates h -> h !! 0 = Some first ->
  exists prompt,
    _create_prompt x
    = ok (VPromptDict prompt ("问题1: " +:+ content first +:+ nl +:+ "总结:")).
Proof.
  intros Hx Heven Halt Hfirst. exists (prompt_of h first).
  now apply _create_prompt_valid.
Qed.

(** C4, amended. For every even-length alternating history that has a first
    message, and every text the model step returns, the chain built without
    streaming returns the prefix followed by that text. *)
Theorem C4_non_streaming_output cls model_kwargs kwargs
    (x : request) (w w' : W) (h : list Message) (first : Message) (out : string) :
  x !! "chat_history" = Some (VMessages h) ->
  Nat.Even (length h) -> alternates h -> h !! 0 = Some first ->
  from_option truthy false (kwargs !! "stream") = false ->
  Iternlm2Chat7BChatChain_create_chain cls (default ∅ model_kwargs) kwargs
    (llm_input x (prompt_of h first) (prefix_of (content first))) w
    = (ok (VStr out), w') ->
  create_chain cls model_kwargs kwargs x w
  = (ok (OutValue (VStr (prefix_of (content first) +:+ out))), w').
Proof.
  intros Hx Heven Halt Hfirst Hstream Hllm.
  rewrite (create_chain_runs cls model_kwargs kwargs x w
             (prompt_of h first) (prefix_of (content first)))
    by now apply (_create_prompt_valid x h).
  rewrite Hllm, Hstream. reflexivity.
Qed.

(** C5, amended. The streaming formatter yields the prefix, then the chunks
    of the model stream, one by one and in their order, and then ends; and
    for every even-length alternating history that has a first message, the
    chain built with streaming returns that generator over the prefix of the
    prompt dict and the chunks the model step returned. *)
Theorem C5_streaming_output :
  (forall (x : request) (prefix : value) (chunks : list string) fuel,
      x !! "prefix" = Some prefix ->
      x !! "llm_output" = Some (VStream chunks) ->
      length chunks + 2 <= fuel ->
      next (stream_postprocess_fn x) = (ok (Some prefix), GenAfterPrefix x)
      /\ consume fuel (stream_postprocess_fn x)
         = Some (ok (prefix :: (VStr <$> chunks))))
  /\ (forall cls model_kwargs kwargs (x : request) (w w' : W)
        (h : list Message) (first : Message) (chunks : list string) fuel,
      x !! "chat_history" = Some (VMessages h) ->
      Nat.Even (length h) -> alternates h -> h !! 0 = Some first ->
      from_option truthy false (kwargs !! "stream") = true ->
      Iternlm2Chat7BChatChain_create_chain cls (default ∅ model_kwargs) kwargs
        (llm_input x (prompt_of h first) (prefix_of (content first))) w
        = (ok (VStream chunks), w') ->
      length chunks + 2 <= fuel ->
      exists g,
        create_chain cls model_kwargs kwargs x w = (ok (OutGenerator g), w')
        /\ consume fuel g
           = Some (ok (VStr (prefix_of (content first)) :: (VStr <$> chunks)))).
Proof.
  split.
  - intros x prefix chunks fuel Hp Hout Hfuel. split.
    + unfold stream_postprocess_fn, next, dict_getitem. now rewrite Hp.
    + now apply consume_stream.
  - intros cls model_kwargs kwargs x w w' h first chunks fuel
      Hx Heven Halt Hfirst Hstream Hllm Hfuel.
    eexists. split.
    + rewrite (create_chain_runs cls model_kwargs kwargs x w
                 (prompt_of h first) (prefix_of (content first)))
        by now apply (_create_prompt_valid x h).
      rewrite Hllm, Hstream. reflexivity.
    + apply consume_stream; [|apply lookup_insert_eq|assumption].
      rewrite lookup_insert_ne by discriminate.
      unfold llm_input. apply lookup_insert_eq.
Qed.

(** C6, amended. For every even-length alternating history that has a first
    message, the prompt is the rendering by [build_prompt] of the system
    template, the pairs and the query instruction, followed by the preamble
    (the number [length h / 2] of turns, then the questions as a list
    numbered from 1), followed by the prefix. *)
Theorem C6_prompt_is_block_preamble_prefix
    (x : request) (h : list Message) (first : Message) :
  x !! "chat_history" = Some (VMessages h) ->
  Nat.Even (length h) -> alternates h -> h !! 0 = Some first ->
  exists history questions prefix,
    pair_history h = ok (history, questions)
    /\ prefix = prefix_of (content first)
    /\ _create_prompt x
       = ok (VPromptDict
               (build_prompt CHIT_CHAT_SYSTEM_TEMPLATE history query_input
                  +:+ ("好的，根据提供历史对话信息，共有"
                         +:+ str_of_nat (length h / 2) +:+ "段对话:" +:+ nl
                         +:+ numbered_from 1 questions +:+ nl
                         +:+ "对它们的总结如下(每一个总结要先复述一下问题):" +:+ nl)
                  +:+ prefix)
               prefix).
Proof.
  intros Hx Heven Halt Hfirst.
  exists (pairs_of h), (questions_of h), (prefix_of (content first)).
  split; [|split; [reflexivity|]].
  - now rewrite pair_history_eq, valid_passes.
  - now apply _create_prompt_valid.
Qed.

(** C9. The empty history passes the checks of the validator (it breaks none
    of its three conditions and the pairing loop returns no pair and no
    question), and prompt construction then raises [IndexError] at the first
    question; the chain raises it too without running the model step. *)
Theorem C9_empty_history_raises_index_error cls model_kwargs kwargs
    (x : request) (w : W) :
  x !! "chat_history" = Some (VMessages []) ->
  ~ malformed []
  /\ pair_history [] = ok ([], [])
  /\ _create_prompt x = raise IndexError
  /\ (forall prompt prefix, _create_prompt x <> ok (VPromptDict prompt prefix))
  /\ create_chain cls model_kwargs kwargs x w = (raise IndexError, w).
Proof.
  intros Hx.
  assert (Hraise : _create_prompt x = raise IndexError)
    by now rewrite (_create_prompt_eq x [] Hx).
  split; [|split; [reflexivity|split; [assumption|split]]].
  - intros [[p Hp] | [(i & m & Hi & _) | (i & m & Hi & _)]].
    + cbn in Hp. lia.
    + rewrite lookup_nil in Hi. discriminate.
    + rewrite lookup_nil in Hi. discriminate.
  - intros prompt prefix. rewrite Hraise. discriminate.
  - now apply create_chain_raises.
Qed.

(** C10. The chain of the Claude summary classes runs the inherited chat
    chain on the request with [query] set to the instruction of the family:
    that request holds the instruction under [query] whatever the incoming
    request held there, a query the caller supplied is replaced, and every
    other key is passed as it came. *)
Theorem C10_query_is_replaced cls model_kwargs kwargs (x : request) (w : W) :
  let x' := <["query" := VStr Claude2_query_input]> x in
  Claude2_create_chain cls model_kwargs kwargs x w
  = Claude2ChatChain_create_chain cls model_kwargs kwargs x' w
  /\ x' !! "query" = Some (VStr Claude2_query_input)
  /\ (forall supplied,
        Claude2_create_chain cls model_kwargs kwargs (<["query" := supplied]> x) w
        = Claude2ChatChain_create_chain cls model_kwargs kwargs x' w)
  /\ (forall key, key <> "query" -> x' !! key = x !! key).
Proof.
  intros x'.
  assert (Hrun : forall y : request,
    Claude2_create_chain cls model_kwargs kwargs y w
    = Claude2ChatChain_create_chain cls model_kwargs kwargs
        (<["query" := VStr Claude2_query_input]> y) w) by reflexivity.
  split; [apply Hrun|]. split; [apply lookup_insert_eq|]. split.
  - intros supplied. rewrite Hrun. unfold x'. now rewrite insert_insert_eq.
  - intros key Hkey. unfold x'. now rewrite lookup_insert_ne.
Qed.

(** *** Computations on the object store *)

Lemma reads_ret {A} (a : A) : Store.reads (Store.ret a).
Proof. intros h. reflexivity. Qed.

Lemma reads_fail {A} (e : exn) : Store.reads (Store.fail (A:=A) e).
Proof. intros h. reflexivity. Qed.

Lemma reads_lift {A} (r : result A) : Store.reads (Store.lift r).
Proof. intros h. reflexivity. Qed.

Lemma reads_bind {A B} (c : Store.ST A) (k : A -> Store.ST B) :
  Store.reads c -> (forall a, Store.reads (k a)) -> Store.reads (Store.bind c k).
Proof.
  intros Hc Hk h. unfold Store.bind. specialize (Hc h).
  destruct (c h) as [[e|a] h']; cbn in Hc; subst h'; [reflexivity|apply Hk].
Qed.

Lemma reads_deref v : Store.reads (Store.deref v).
Proof.
  intros h. unfold Store.deref.
  destruct v as [s|a b|l]; try reflexivity.
  destruct (h !! l); reflexivity.
Qed.

Lemma reads_assert cond payload : Store.reads (Store.assert cond payload).
Proof. intros h. unfold Store.assert. destruct cond; reflexivity. Qed.

Lemma reads_dict_getitem d key : Store.reads (Store.dict_getitem d key).
Proof.
  apply reads_bind; [apply reads_deref|].
  intros [items|entries|m]; try apply reads_fail.
  destruct (entries !! key); [apply reads_ret|apply reads_fail].
Qed.

Lemma reads_len v : Store.reads (Store.len v).
Proof.
  apply reads_bind; [apply reads_deref|].
  intros [items|entries|m]; first [apply reads_ret|apply reads_fail].
Qed.

Lemma reads_list_items v : Store.reads (Store.list_items v).
Proof.
  apply reads_bind; [apply reads_deref|].
  intros [items|entries|m]; first [apply reads_ret|apply reads_fail].
Qed.

Lemma reads_list_getitem v i : Store.reads (Store.list_getitem v i).
Proof.
  apply reads_bind; [apply reads_list_items|].
  intros items. destruct (items !! i); [apply reads_ret|apply reads_fail].
Qed.

Lemma reads_getattr_type v : Store.reads (Store.getattr_type v).
Proof.
  apply reads_bind; [apply reads_deref|].
  intros [items|entries|m]; first [apply reads_ret|apply reads_fail].
Qed.

Lemma reads_getattr_content v : Store.reads (Store.getattr_content v).
Proof.
  apply reads_bind; [apply reads_deref|].
  intros [items|entries|m]; first [apply reads_ret|apply reads_fail].
Qed.

Lemma frames_reads {A} h0 (c : Store.ST A) : Store.reads c -> Store.frames h0 c.
Proof.
  intros Hc h Hh. specialize (Hc h).
  destruct (c h) as [[e|a] h']; cbn in Hc; subst h'; auto.
Qed.

Lemma keeps_bind {A B} h0 (c : Store.ST A) (k : A -> Store.ST B) Q :
  Store.frames h0 c -> (forall a, Store.keeps h0 (k a) Q) ->
  Store.keeps h0 (Store.bind c k) Q.
Proof.
  intros Hc Hk h Hh. unfold Store.bind. specialize (Hc h Hh).
  destruct (c h) as [[e|a] h']; [assumption|].
  destruct Hc as [Hh' _]. apply Hk, Hh'.
Qed.

(** A new object sits at a location that [h0] does not have. *)
Lemma keeps_alloc h0 o :
  Store.keeps h0 (Store.alloc o)
    (fun v h' => exists l, v = Store.PRef l /\ h0 !! l = None /\ h' !! l = Some o).
Proof.
  intros h Hh. unfold Store.alloc. cbn.
  assert (Hfresh : h !! fresh (dom h) = None)
    by (apply not_elem_of_dom; apply is_fresh).
  assert (H0 : h0 !! fresh (dom h) = None).
  { destruct (h0 !! fresh (dom h)) as [o'|] eqn:Ho; [|reflexivity].
    eapply lookup_weaken in Ho; [|exact Hh]. congruence. }
  split.
  - now apply insert_subseteq_r.
  - eexists. split; [reflexivity|]. split; [assumption|apply lookup_insert_eq].
Qed.

Lemma keeps_bind_alloc {B} h0 o (k : Store.pyval -> Store.ST B) Q :
  (forall l, h0 !! l = None -> Store.keeps h0 (k (Store.PRef l)) Q) ->
  Store.keeps h0 (Store.bind (Store.alloc o) k) Q.
Proof.
  intros Hk h Hh. unfold Store.bind.
  pose proof (keeps_alloc h0 o h Hh) as Ha.
  destruct (Store.alloc o h) as [[e|v] h']; [assumption|].
  destruct Ha as (Hh' & l & -> & Hl & _). now apply Hk.
Qed.

Lemma keeps_conseq {A} h0 (c : Store.ST A) (Q Q' : A -> Store.store -> Prop) :
  Store.keeps h0 c Q -> (forall a h', Q a h' -> Q' a h') -> Store.keeps h0 c Q'.
Proof.
  intros Hc HQ h Hh. specialize (Hc h Hh).
  destruct (c h) as [[e|a] h']; [assumption|].
  destruct Hc as [Hh' Hq]. split; [assumption|now apply HQ].
Qed.

(** Appending to a list that [h0] does not have keeps [h0]. *)
Lemma frames_append h0 lst v :
  (forall l, lst = Store.PRef l -> h0 !! l = None) ->
  Store.frames h0 (Store.append lst v).
Proof.
  intros Hl h Hh. unfold Store.append.
  destruct lst as [s|a b|l]; try assumption.
  destruct (h !! l) as [[items|entries|m]|]; try assumption.
  split; [|exact I]. apply insert_subseteq_r; [now apply Hl|assumption].
Qed.

Lemma frames_for_each {I} h0 (body : I -> Store.ST unit) (items : list I) :
  (forall i, Store.frames h0 (body i)) ->
  Store.frames h0 (Store.for_each body items).
Proof.
  intros Hbody. induction items as [|i rest IH].
  - apply frames_reads, reads_ret.
  - cbn [Store.for_each]. apply keeps_bind; [apply Hbody|]. intros _. apply IH.
Qed.

Create HintDb store_reads discriminated.
#[local] Hint Resolve reads_ret reads_fail reads_lift reads_deref reads_assert
  reads_dict_getitem reads_len reads_list_items reads_list_getitem
  reads_getattr_type reads_getattr_content : store_reads.

(** One statement of a body: a read, or an append to a list that [h0] does
    not have. *)
Ltac frame_statement :=
  first [ apply frames_reads; solve [auto with store_reads]
        | apply frames_append; intros ? [= <-]; assumption ].

Ltac frame_body :=
  repeat (apply keeps_bind; [frame_statement | intros ?]); try frame_statement.

Lemma frames_pair_step h0 chat_history lh lq i :
  h0 !! lh = None -> h0 !! lq = None ->
  Store.frames h0
    (Store.pair_step HUMAN_MESSAGE_TYPE AI_MESSAGE_TYPE
       chat_history (Store.PRef lh) (Store.PRef lq) i).
Proof.
  intros Hlh Hlq. unfold Store.pair_step, Store.frames. frame_body.
Qed.

(** [_create_prompt] on the store: every object the store had is kept as it
    was, and the result is a reference to a new dict of two strings. *)
Lemma keeps__create_prompt h0 x :
  Store.keeps h0
    (Store._create_prompt HUMAN_MESSAGE_TYPE AI_MESSAGE_TYPE
       CHIT_CHAT_SYSTEM_TEMPLATE build_prompt x)
    (fun v h' => exists l prompt prefix,
       v = Store.PRef l /\ h0 !! l = None
       /\ h' !! l = Some (Store.ODict {[ "prompt" := Store.PStr prompt;
                                          "prefix" := Store.PStr prefix ]})).
Proof.
  unfold Store._create_prompt.
  apply keeps_bind; [frame_statement|intros chat_history].
  apply keeps_bind; [frame_statement|intros n].
  apply keeps_bind; [frame_statement|intros _].
  apply keeps_bind_alloc; intros lh Hlh.
  apply keeps_bind_alloc; intros lq Hlq.
  apply keeps_bind; [apply frames_for_each; intros i; now apply frames_pair_step|].
  intros _.
  do 7 (apply keeps_bind; [frame_statement|intros ?]).
  eapply keeps_conseq; [apply keeps_alloc|].
  intros v h' (l & -> & Hl & Hnew). eauto 8.
Qed.

(** The assignment of [query]: the request dict is read, and a new dict
    with its entries and the new [query] is made. *)
Lemma assign_query_eq (x : Store.pyval) (h : Store.store) :
  Store.assign_query x h =
    match x with
    | Store.PRef lx =>
        match h !! lx with
        | Some (Store.ODict entries) =>
            (ok (Store.PRef (fresh (dom h))),
             <[fresh (dom h) :=
                 Store.ODict (<["query" := Store.PStr Claude2_query_input]> entries)]> h)
        | _ => (raise TypeError, h)
        end
    | _ => (raise TypeError, h)
    end.
Proof.
  unfold Store.assign_query, Store.bind, Store.deref.
  destruct x as [s|a b|lx]; try reflexivity.
  destruct (h !! lx) as [[items|entries|m]|]; reflexivity.
Qed.

Lemma keeps_assign_query h0 x :
  Store.keeps h0 (Store.assign_query x)
    (fun v h' => exists l lx entries,
       v = Store.PRef l /\ h0 !! l = None
       /\ x = Store.PRef lx /\ h' !! lx = Some (Store.ODict entries)
       /\ h' !! l = Some (Store.ODict
                            (<["query" := Store.PStr Claude2_query_input]> entries))).
Proof.
  intros h Hh. rewrite assign_query_eq.
  destruct x as [s|a b|lx]; try assumption.
  destruct (h !! lx) as [[items|entries|m]|] eqn:Hx; try assumption.
  assert (Hfresh : h !! fresh (dom h) = None)
    by (apply not_elem_of_dom; apply is_fresh).
  assert (H0 : h0 !! fresh (dom h) = None).
  { destruct (h0 !! fresh (dom h)) as [o'|] eqn:Ho; [|reflexivity].
    eapply lookup_weaken in Ho; [|exact Hh]. congruence. }
  split; [now apply insert_subseteq_r|].
  exists (fresh (dom h)), lx, entries.
  repeat split; try assumption; [|apply lookup_insert_eq].
  rewrite lookup_insert_ne by congruence. assumption.
Qed.

(** C7. Prompt construction writes no object that existed before it ran.
    Run from any store [h0] on any request [x]: after [_create_prompt],
    returned or raised, every object of [h0] (the request dict, the list
    of the history, each message) is in the store with the content it had,
    and a returned result refers to a new dict, at a location [h0] did not
    have, holding two strings; the assignment of [query] of the Claude chain
    likewise keeps every object and makes a new request dict from the
    entries of [x]; and the Claude chain keeps every object when the chat
    chain it inherits does. *)
Theorem C7_prompt_construction_keeps_the_store (h0 : Store.store) (x : Store.pyval) :
  (let run := Store._create_prompt HUMAN_MESSAGE_TYPE AI_MESSAGE_TYPE
                CHIT_CHAT_SYSTEM_TEMPLATE build_prompt x h0 in
   (forall l o, h0 !! l = Some o -> run.2 !! l = Some o)
   /\ (forall v, run.1 = ok v ->
         exists l prompt prefix,
           v = Store.PRef l /\ h0 !! l = None
           /\ run.2 !! l = Some (Store.ODict {[ "prompt" := Store.PStr prompt;
                                                "prefix" := Store.PStr prefix ]})))
  /\ (let run := Store.assign_query x h0 in
      (forall l o, h0 !! l = Some o -> run.2 !! l = Some o)
      /\ (forall v, run.1 = ok v ->
            exists l lx entries,
              v = Store.PRef l /\ h0 !! l = None
              /\ x = Store.PRef lx /\ h0 !! lx = Some (Store.ODict entries)
              /\ run.2 !! l
                 = Some (Store.ODict
                           (<["query" := Store.PStr Claude2_query_input]> entries))))
  /\ (forall inherited : Store.pyval -> Store.ST Store.pyval,
        (forall y h l o, h !! l = Some o -> (inherited y h).2 !! l = Some o) ->
        forall l o, h0 !! l = Some o ->
          (Store.Claude2_chain inherited x h0).2 !! l = Some o).
Proof.
  split; [|split].
  - pose proof (keeps__create_prompt h0 x h0 (reflexivity h0)) as Hk.
    cbn zeta. destruct (Store._create_prompt _ _ _ _ x h0) as [[e|v] h']; cbn [fst snd].
    + split; [|discriminate]. intros l o Hl. eapply lookup_weaken; eassumption.
    + destruct Hk as [Hsub Hnew]. split.
      * intros l o Hl. eapply lookup_weaken; eassumption.
      * intros v' [= <-]. exact Hnew.
  - pose proof (keeps_assign_query h0 x h0 (reflexivity h0)) as Hk.
    cbn zeta. rewrite assign_query_eq in *.
    destruct x as [s|a b|lx]; cbn [fst snd]; try (split; [auto|discriminate]).
    destruct (h0 !! lx) as [[items|entries|m]|] eqn:Hx; cbn [fst snd];
      try (split; [auto|discriminate]).
    destruct Hk as [Hsub (l & lx' & entries' & Hv & Hl & Hlx & Hx' & Hnew)].
    split.
    + intros l' o Hl'. eapply lookup_weaken; eassumption.
    + intros v [= <-]. injection Hv as <-.
      exists (fresh (dom h0)), lx, entries.
      repeat split; try assumption. apply lookup_insert_eq.
  - intros inherited Hinh l o Hl.
    pose proof (keeps_assign_query h0 x h0 (reflexivity h0)) as Hk.
    unfold Store.Claude2_chain, Store.bind.
    destruct (Store.assign_query x h0) as [[e|v] h']; cbn [fst snd].
    + eapply lookup_weaken; eassumption.
    + destruct Hk as [Hsub _]. apply Hinh. eapply lookup_weaken; eassumption.
Qed.

(** *** The store computation refines the function on values *)

Lemma holds_messages_weaken (h h' : Store.store) v msgs :
  h ⊆ h' -> Store.holds_messages h v msgs -> Store.holds_messages h' v msgs.
Proof.
  intros Hsub (l & locs & -> & Hl & Hmsgs).
  exists l, locs. split; [reflexivity|]. split.
  - eapply lookup_weaken; eassumption.
  - eapply Forall2_impl; [exact Hmsgs|].
    intros l' m Hm. exact (lookup_weaken _ _ _ _ Hm Hsub).
Qed.

Lemma holds_messages_lookup (h : Store.store) (locs : list Store.loc) msgs i :
  Forall2 (fun l' m => h !! l' = Some (Store.OMessage m)) locs msgs ->
  match msgs !! i with
  | Some m => exists l', locs !! i = Some l' /\ h !! l' = Some (Store.OMessage m)
  | None => locs !! i = None
  end.
Proof.
  intros Hmsgs. destruct (msgs !! i) as [m|] eqn:Hi.
  - destruct (Forall2_lookup_r _ _ _ _ _ Hmsgs Hi) as (l' & Hl' & Hm). eauto.
  - apply lookup_ge_None. apply lookup_ge_None in Hi.
    now rewrite (Forall2_length _ _ _ Hmsgs).
Qed.

(** [chat_history[i].type], read in a store that holds the messages. *)
Lemma read_type {B} (h : Store.store) ch msgs i (k : string -> Store.ST B) :
  Store.holds_messages h ch msgs ->
  Store.bind (Store.list_getitem ch i)
    (fun m => Store.bind (Store.getattr_type m) k) h
  = match msgs !! i with
    | Some m => k (type m) h
    | None => (raise IndexError, h)
    end.
Proof.
  intros (l & locs & -> & Hl & Hmsgs).
  pose proof (holds_messages_lookup h locs msgs i Hmsgs) as Hi.
  unfold Store.list_getitem, Store.list_items, Store.getattr_type,
    Store.deref, Store.bind, Store.ret, Store.fail.
  rewrite Hl, list_lookup_fmap.
  destruct (msgs !! i) as [m|].
  - destruct Hi as (l' & -> & Hm). cbn. now rewrite Hm.
  - now rewrite Hi.
Qed.

(** [chat_history[i].content], likewise. *)
Lemma read_content {B} (h : Store.store) ch msgs i (k : string -> Store.ST B) :
  Store.holds_messages h ch msgs ->
  Store.bind (Store.list_getitem ch i)
    (fun m => Store.bind (Store.getattr_content m) k) h
  = match msgs !! i with
    | Some m => k (content m) h
    | None => (raise IndexError, h)
    end.
Proof.
  intros (l & locs & -> & Hl & Hmsgs).
  pose proof (holds_messages_lookup h locs msgs i Hmsgs) as Hi.
  unfold Store.list_getitem, Store.list_items, Store.getattr_content,
    Store.deref, Store.bind, Store.ret, Store.fail.
  rewrite Hl, list_lookup_fmap.
  destruct (msgs !! i) as [m|].
  - destruct Hi as (l' & -> & Hm). cbn. now rewrite Hm.
  - now rewrite Hi.
Qed.

Lemma snapshot_items (h : Store.store) (locs : list Store.loc) msgs :
  Forall2 (fun l' m => h !! l' = Some (Store.OMessage m)) locs msgs ->
  omap (fun item =>
          match item with
          | Store.PRef l' =>
              match h !! l' with
              | Some (Store.OMessage m) => Some m
              | _ => None
              end
          | _ => None
          end) (Store.PRef <$> locs) = msgs.
Proof.
  induction 1 as [|l' m locs msgs Hm _ IH]; [reflexivity|].
  rewrite fmap_cons. cbn [omap list_omap]. rewrite Hm.
  f_equal. exact IH.
Qed.

Lemma snapshot_messages (h : Store.store) ch msgs :
  Store.holds_messages h ch msgs -> Store.snapshot ch h = msgs.
Proof.
  intros (l & locs & -> & Hl & Hmsgs). unfold Store.snapshot. rewrite Hl.
  now apply snapshot_items.
Qed.

Lemma len_messages (h : Store.store) ch msgs :
  Store.holds_messages h ch msgs -> Store.len ch h = (ok (length msgs), h).
Proof.
  intros (l & locs & -> & Hl & Hmsgs).
  unfold Store.len, Store.deref, Store.bind, Store.ret. rewrite Hl.
  now rewrite length_fmap, (Forall2_length _ _ _ Hmsgs).
Qed.

Lemma assert_messages {B} (h : Store.store) ch msgs cond (k : unit -> Store.ST B) :
  Store.holds_messages h ch msgs ->
  Store.bind (Store.assert cond ch) k h
  = if cond then k tt h else (raise (AssertionError msgs), h).
Proof.
  intros Hch. unfold Store.bind, Store.assert.
  destruct cond; [reflexivity|]. now rewrite (snapshot_messages h ch msgs).
Qed.

Lemma append_list (h : Store.store) l items v :
  h !! l = Some (Store.OList items) ->
  Store.append (Store.PRef l) v h
  = (ok tt, <[l := Store.OList (items ++ [v])]> h).
Proof. intros Hl. unfold Store.append. now rewrite Hl. Qed.

Section Refinement.
Variable h0 : Store.store.
Variable ch : Store.pyval.
Variable msgs : list Message.
Variables lh lq : Store.loc.
Hypothesis h0_messages : Store.holds_messages h0 ch msgs.
Hypothesis h0_lh : h0 !! lh = None.
Hypothesis h0_lq : h0 !! lq = None.
Hypothesis lh_lq : lh <> lq.

Lemma store_pair_step (h : Store.store) H Q i :
  Store.loop_store h0 lh lq h H Q ->
  match pair_step msgs (H, Q) i with
  | inl e =>
      Store.pair_step HUMAN_MESSAGE_TYPE AI_MESSAGE_TYPE ch
        (Store.PRef lh) (Store.PRef lq) i h = (inl e, h)
  | inr (H', Q') =>
      exists h',
        Store.pair_step HUMAN_MESSAGE_TYPE AI_MESSAGE_TYPE ch
          (Store.PRef lh) (Store.PRef lq) i h = (ok tt, h')
        /\ Store.loop_store h0 lh lq h' H' Q'
  end.
Proof.
  intros (Hsub & Hlh & Hlq).
  pose proof (holds_messages_weaken h0 h ch msgs Hsub h0_messages) as Hch.
  unfold pair_step, Store.pair_step, getitem.
  rewrite (read_type h ch msgs i _ Hch).
  destruct (msgs !! i) as [human|] eqn:Hhuman; cbn [rbind]; [|reflexivity].
  rewrite (assert_messages h ch msgs _ _ Hch).
  destruct (String.eqb (type human) HUMAN_MESSAGE_TYPE); [|reflexivity].
  rewrite (read_type h ch msgs (i + 1) _ Hch).
  destruct (msgs !! (i + 1)) as [ai|] eqn:Hai; cbn [rbind]; [|reflexivity].
  rewrite (assert_messages h ch msgs _ _ Hch).
  destruct (String.eqb (type ai) AI_MESSAGE_TYPE); [|reflexivity].
  rewrite (read_content h ch msgs i _ Hch), Hhuman.
  unfold Store.bind at 1. rewrite (append_list h lq _ _ Hlq).
  set (h1 := <[lq := _]> h).
  assert (Hsub1 : h0 ⊆ h1) by (now apply insert_subseteq_r).
  pose proof (holds_messages_weaken h0 h1 ch msgs Hsub1 h0_messages) as Hch1.
  rewrite (read_content h1 ch msgs i _ Hch1), Hhuman.
  rewrite (read_content h1 ch msgs (i + 1) _ Hch1), Hai.
  assert (Hlh1 : h1 !! lh = Some (Store.OList (Store.tuple_of <$> H)))
    by (unfold h1; now rewrite lookup_insert_ne by congruence).
  rewrite (append_list h1 lh _ _ Hlh1).
  eexists. split; [reflexivity|]. split; [|split].
  - now apply insert_subseteq_r.
  - rewrite lookup_insert_eq, fmap_app. reflexivity.
  - rewrite lookup_insert_ne by assumption.
    unfold h1. rewrite lookup_insert_eq, fmap_app. reflexivity.
Qed.

Lemma store_pair_loop (items : list nat) : forall (h : Store.store) H Q,
  Store.loop_store h0 lh lq h H Q ->
  match for_each (pair_step msgs) items (H, Q) with
  | inl e =>
      (Store.for_each
         (Store.pair_step HUMAN_MESSAGE_TYPE AI_MESSAGE_TYPE ch
            (Store.PRef lh) (Store.PRef lq)) items h).1 = inl e
  | inr (H', Q') =>
      exists h',
        Store.for_each
          (Store.pair_step HUMAN_MESSAGE_TYPE AI_MESSAGE_TYPE ch
             (Store.PRef lh) (Store.PRef lq)) items h = (ok tt, h')
        /\ Store.loop_store h0 lh lq h' H' Q'
  end.
Proof.
  induction items as [|i rest IH]; intros h H Q Hloop.
  - cbn. eauto.
  - cbn [for_each Store.for_each]. unfold Store.bind.
    pose proof (store_pair_step h H Q i Hloop) as Hstep.
    destruct (pair_step msgs (H, Q) i) as [e|[H' Q']]; cbn [rbind].
    + now rewrite Hstep.
    + destruct Hstep as (h' & -> & Hloop'). apply IH, Hloop'.
Qed.

End Refinement.

Lemma sequence_as_str (Q : list string) :
  Store.sequence (Store.as_str <$> (Store.PStr <$> Q)) = ok Q.
Proof.
  induction Q as [|q Q IH]; [reflexivity|].
  rewrite !fmap_cons. cbn [Store.sequence Store.as_str rbind].
  now rewrite IH.
Qed.

Lemma sequence_as_pair (H : list (string * string)) :
  Store.sequence (Store.as_pair <$> (Store.tuple_of <$> H)) = ok H.
Proof.
  induction H as [|[q a] H IH]; [reflexivity|].
  rewrite !fmap_cons. cbn [Store.sequence Store.as_pair Store.tuple_of rbind fst snd].
  now rewrite IH.
Qed.

Lemma bind_dict_getitem {B} (h : Store.store) lx entries key v
    (k : Store.pyval -> Store.ST B) :
  h !! lx = Some (Store.ODict entries) -> entries !! key = Some v ->
  Store.bind (Store.dict_getitem (Store.PRef lx) key) k h = k v h.
Proof.
  intros Hlx Hkey.
  unfold Store.dict_getitem, Store.deref, Store.bind, Store.ret.
  now rewrite Hlx, Hkey.
Qed.

Lemma bind_list_items {B} (h : Store.store) l items
    (k : list Store.pyval -> Store.ST B) :
  h !! l = Some (Store.OList items) ->
  Store.bind (Store.list_items (Store.PRef l)) k h = k items h.
Proof.
  intros Hl. unfold Store.list_items, Store.deref, Store.bind, Store.ret.
  now rewrite Hl.
Qed.

Lemma bind_len_list {B} (h : Store.store) l items (k : nat -> Store.ST B) :
  h !! l = Some (Store.OList items) ->
  Store.bind (Store.len (Store.PRef l)) k h = k (length items) h.
Proof.
  intros Hl. unfold Store.len, Store.deref, Store.bind, Store.ret.
  now rewrite Hl.
Qed.

Lemma bind_list_getitem {B} (h : Store.store) l items i
    (k : Store.pyval -> Store.ST B) :
  h !! l = Some (Store.OList items) ->
  Store.bind (Store.list_getitem (Store.PRef l) i) k h
  = match items !! i with
    | Some v => k v h
    | None => (raise IndexError, h)
    end.
Proof.
  intros Hl.
  unfold Store.list_getitem, Store.list_items, Store.deref, Store.bind,
    Store.ret, Store.fail.
  rewrite Hl. destruct (items !! i); reflexivity.
Qed.

Lemma bind_lift {A B} (r : result A) (k : A -> Store.ST B) (h : Store.store) :
  Store.bind (Store.lift r) k h
  = match r with
    | inl e => (inl e, h)
    | inr a => k a h
    end.
Proof. unfold Store.bind, Store.lift. destruct r; reflexivity. Qed.

(** X12. On a store that holds the request, its history and its messages,
    [_create_prompt] on the store and [_create_prompt] on values agree: they
    raise the same exception, or the one returns a reference to a new dict
    that holds the prompt and the prefix the other returns. *)
Theorem store_create_prompt_refines (h0 : Store.store) (lx : Store.loc)
    (entries : gmap string Store.pyval) (ch : Store.pyval)
    (msgs : list Message) (x : request) :
  h0 !! lx = Some (Store.ODict entries) ->
  entries !! "chat_history" = Some ch ->
  Store.holds_messages h0 ch msgs ->
  x !! "chat_history" = Some (VMessages msgs) ->
  let run := Store._create_prompt HUMAN_MESSAGE_TYPE AI_MESSAGE_TYPE
               CHIT_CHAT_SYSTEM_TEMPLATE build_prompt (Store.PRef lx) h0 in
  match _create_prompt x with
  | inl e => run.1 = inl e
  | inr (VPromptDict prompt prefix) =>
      exists l,
        run.1 = ok (Store.PRef l) /\ h0 !! l = None
        /\ run.2 !! l = Some (Store.ODict {[ "prompt" := Store.PStr prompt;
                                             "prefix" := Store.PStr prefix ]})
  | inr _ => False
  end.
Proof.
  intros Hlx Hch Hmsgs Hx run.
  assert (Erun : run = Store._create_prompt HUMAN_MESSAGE_TYPE AI_MESSAGE_TYPE
                         CHIT_CHAT_SYSTEM_TEMPLATE build_prompt (Store.PRef lx) h0)
    by reflexivity.
  clearbody run.
  unfold _create_prompt, dict_getitem, pair_history.
  rewrite Hx. cbn [rbind as_messages].
  unfold Store._create_prompt in Erun.
  rewrite (bind_dict_getitem h0 lx entries _ ch _ Hlx Hch) in Erun.
  unfold Store.bind at 1 in Erun. rewrite (len_messages h0 ch msgs Hmsgs) in Erun.
  rewrite (assert_messages h0 ch msgs _ _ Hmsgs) in Erun.
  destruct (length msgs mod 2 =? 0)%nat; cbn [rbind]; [|now subst run].
  unfold Store.bind at 1, Store.alloc at 1 in Erun.
  set (lh := fresh (dom h0)) in *. set (h1 := <[lh := Store.OList []]> h0) in *.
  unfold Store.bind at 1, Store.alloc at 1 in Erun.
  set (lq := fresh (dom h1)) in *. set (h2 := <[lq := Store.OList []]> h1) in *.
  assert (Hlh : h0 !! lh = None) by (apply not_elem_of_dom, is_fresh).
  assert (Hlq1 : h1 !! lq = None) by (apply not_elem_of_dom, is_fresh).
  assert (Hsub1 : h0 ⊆ h1) by (now apply insert_subseteq).
  assert (Hlq : h0 !! lq = None).
  { destruct (h0 !! lq) eqn:Hl; [|reflexivity].
    eapply lookup_weaken in Hl; [|exact Hsub1]. congruence. }
  assert (Hne : lh <> lq).
  { intros Heq. rewrite <- Heq in Hlq1. unfold h1 in Hlq1.
    rewrite lookup_insert_eq in Hlq1. discriminate. }
  assert (Hloop : Store.loop_store h0 lh lq h2 [] []).
  { split; [|split].
    - etransitivity; [exact Hsub1|]. now apply insert_subseteq.
    - unfold h2, h1. rewrite lookup_insert_ne by congruence.
      apply lookup_insert_eq.
    - apply lookup_insert_eq. }
  pose proof (store_pair_loop h0 ch msgs lh lq Hmsgs Hlh Hlq Hne
                (range 0 (length msgs) 2) h2 [] [] Hloop) as Hrun.
  unfold Store.bind at 1 in Erun.
  destruct (for_each (pair_step msgs) (range 0 (length msgs) 2) ([], []))
    as [e|[H Q]]; cbn [rbind].
  - destruct (Store.for_each _ _ h2) as [[e'|u] h']; cbn [fst] in Hrun;
      [|discriminate].
    subst run. cbn [fst]. congruence.
  - destruct Hrun as (h' & Hfor & Hsub & HH & HQ). rewrite Hfor in Erun.
    rewrite (bind_list_items h' lq _ _ HQ), bind_lift, sequence_as_str in Erun.
    rewrite (bind_list_items h' lh _ _ HH), bind_lift, sequence_as_pair in Erun.
    rewrite (bind_len_list h' lh _ _ HH), length_fmap in Erun.
    rewrite (bind_list_getitem h' lq _ 0 _ HQ), list_lookup_fmap in Erun.
    unfold getitem.
    destruct (Q !! 0) as [question0|]; cbn [fmap option_fmap option_map] in Erun;
      [|now subst run].
    rewrite bind_lift in Erun. cbn [Store.as_str rbind] in Erun.
    unfold Store.alloc in Erun. subst run. cbn [fst snd rbind].
    exists (fresh (dom h')). split; [reflexivity|]. split; [|apply lookup_insert_eq].
    assert (Hfresh : h' !! fresh (dom h') = None) by (apply not_elem_of_dom, is_fresh).
    destruct (h0 !! fresh (dom h')) eqn:Hl; [|reflexivity].
    eapply lookup_weaken in Hl; [|exact Hsub]. congruence.
Qed.

(** *** Further properties of prompt construction *)

Lemma forallb_false_witness {A} (f : A -> bool) (l : list A) :
  forallb f l = false -> exists a, In a l /\ f a = false.
Proof.
  induction l as [|a l IH]; [discriminate|].
  cbn [forallb]. destruct (f a) eqn:Hfa; cbn [andb].
  - intros Hl. destruct (IH Hl) as (b & Hb & Hfb). exists b. split; [now right|assumption].
  - intros _. exists a. split; [now left|assumption].
Qed.

Lemma not_passing_malformed (h : list Message) :
  (length h mod 2 =? 0)%nat && forallb (pair_ok h) (seq 0 (length h / 2)) = false ->
  malformed h.
Proof.
  intros Hfail.
  pose proof (Nat.div_mod_eq (length h) 2) as Hdiv.
  pose proof (Nat.mod_upper_bound (length h) 2) as Hmod.
  destruct (length h mod 2 =? 0)%nat eqn:Hm; cbn [andb] in Hfail.
  - apply Nat.eqb_eq in Hm.
    destruct (forallb_false_witness _ _ Hfail) as (k & Hk & Hbad).
    apply in_seq in Hk.
    destruct (lookup_lt_is_Some_2 h (2 * k)) as [q Hq]; [lia|].
    destruct (lookup_lt_is_Some_2 h (2 * k + 1)) as [a Ha]; [lia|].
    unfold pair_ok in Hbad. rewrite Hq, Ha in Hbad.
    apply andb_false_iff in Hbad as [Hbad|Hbad]; apply String.eqb_neq in Hbad.
    + right. left. exists (2 * k), q.
      split; [assumption|]. split; [exists k; lia|assumption].
    + right. right. exists (2 * k + 1), a.
      split; [assumption|]. split; [exists k; lia|assumption].
  - apply Nat.eqb_neq in Hm. left. exists (length h / 2). lia.
Qed.

Lemma passing_valid (h : list Message) :
  (length h mod 2 =? 0)%nat && forallb (pair_ok h) (seq 0 (length h / 2)) = true ->
  Nat.Even (length h) /\ alternates h.
Proof.
  intros Hpass. apply andb_true_iff in Hpass as [Hm Hall].
  apply Nat.eqb_eq in Hm.
  assert (Heven : Nat.Even (length h)).
  { exists (length h / 2). pose proof (Nat.div_mod_eq (length h) 2). lia. }
  split; [assumption|]. now apply all_ok_alternates.
Qed.

(** X1. The outcomes of [_create_prompt] on a request that carries a list of
    messages: it returns a prompt dict exactly when the history has even
    length, alternates and is not empty; it raises [IndexError] exactly when
    the history is empty; it raises [AssertionError] exactly when the
    history is malformed, and the payload is then the history. *)
Theorem X1_create_prompt_outcomes (x : request) (h : list Message) :
  x !! "chat_history" = Some (VMessages h) ->
  ((exists prompt prefix, _create_prompt x = ok (VPromptDict prompt prefix))
     <-> Nat.Even (length h) /\ alternates h /\ h <> [])
  /\ (_create_prompt x = raise IndexError <-> h = [])
  /\ ((exists payload, _create_prompt x = raise (AssertionError payload))
        <-> malformed h)
  /\ (forall payload,
        _create_prompt x = raise (AssertionError payload) -> payload = h).
Proof.
  intros Hx. rewrite (_create_prompt_eq x h Hx).
  destruct (_ && _) eqn:Hpass.
  - destruct (passing_valid h Hpass) as [Heven Halt].
    assert (Hgood : ~ malformed h).
    { intros Hbad. apply malformed_not_passing in Hbad. congruence. }
    destruct h as [|first rest].
    + split; [|split; [|split]].
      * split; [intros (p & q & Hp); discriminate|intros (_ & _ & Hne); congruence].
      * split; reflexivity.
      * split; [intros (p & Hp); discriminate|intros Hbad; contradiction].
      * intros payload Hp. discriminate.
    + split; [|split; [|split]].
      * split; [intros _; repeat split; [assumption..|discriminate]|eauto].
      * split; discriminate.
      * split; [intros (p & Hp); discriminate|intros Hbad; contradiction].
      * intros payload Hp. discriminate.
  - pose proof (not_passing_malformed h Hpass) as Hbad.
    split; [|split; [|split]].
    + split; [intros (p & q & Hp); discriminate|].
      intros (Heven & Halt & _). rewrite valid_passes in Hpass by assumption.
      discriminate.
    + split; [discriminate|intros ->; discriminate Hpass].
    + split; [intros _; assumption|eauto].
    + intros payload [= <-]. reflexivity.
Qed.

(** X2. A request without [chat_history] makes prompt construction raise
    [KeyError] for that key; the chain raises it too and does not run the
    model step. *)
Theorem X2_missing_chat_history cls model_kwargs kwargs (x : request) (w : W) :
  x !! "chat_history" = None ->
  _create_prompt x = raise (KeyError "chat_history")
  /\ create_chain cls model_kwargs kwargs x w = (raise (KeyError "chat_history"), w).
Proof.
  intros Hx.
  assert (Hraise : _create_prompt x = raise (KeyError "chat_history"))
    by (unfold _create_prompt, dict_getitem; now rewrite Hx).
  split; [assumption|now apply create_chain_raises].
Qed.

(** Whatever the request, a result of [_create_prompt] is a prompt dict whose
    prompt is some text followed by the prefix, and whose prefix restates a
    question. *)
Lemma _create_prompt_ok_inv (x : request) (v : value) :
  _create_prompt x = ok v ->
  exists body question,
    v = VPromptDict (body +:+ prefix_of question) (prefix_of question).
Proof.
  unfold _create_prompt.
  destruct (dict_getitem x "chat_history") as [e|c]; [discriminate|]. cbn [rbind].
  destruct (as_messages c) as [e|msgs]; [discriminate|]. cbn [rbind].
  destruct (pair_history msgs) as [e|[history questions]]; [discriminate|].
  cbn [rbind].
  destruct (getitem questions 0) as [e|question]; [discriminate|]. cbn [rbind].
  intros [= <-].
  exists (build_prompt CHIT_CHAT_SYSTEM_TEMPLATE history query_input
            +:+ prompt_assist_of (length history) (questions_str_of questions)),
    question.
  now rewrite append_assoc.
Qed.

(** X11. The prompt of every prompt dict ends with its prefix; hence the
    prompt followed by a model output is the text before the prefix followed
    by the prefix and the output, which is what the chain built without
    streaming returns. *)
Theorem X11_prompt_ends_with_prefix (x : request) (prompt prefix : string) :
  _create_prompt x = ok (VPromptDict prompt prefix) ->
  exists body,
    prompt = body +:+ prefix
    /\ forall out, prompt +:+ out = body +:+ (prefix +:+ out).
Proof.
  intros Hp. destruct (_create_prompt_ok_inv x _ Hp) as (body & question & [= -> ->]).
  exists body. split; [reflexivity|]. intros out. apply append_assoc.
Qed.

(** *** Further properties of the chain *)

(** X3. When prompt construction succeeds and the model step raises, the
    chain raises the same exception, built with or without streaming, and
    the state is the one the model step left. *)
Theorem X3_model_exception_propagates cls model_kwargs kwargs
    (x : request) (w w' : W) (prompt prefix : string) (e : exn) :
  _create_prompt x = ok (VPromptDict prompt prefix) ->
  Iternlm2Chat7BChatChain_create_chain cls (default ∅ model_kwargs) kwargs
    (llm_input x prompt prefix) w = (raise e, w') ->
  create_chain cls model_kwargs kwargs x w = (raise e, w').
Proof.
  intros Hp Hllm.
  rewrite (create_chain_runs cls model_kwargs kwargs x w prompt prefix Hp).
  now rewrite Hllm.
Qed.

(** X5. The request the model step is run on holds the prompt and the prefix
    that [_create_prompt] built, over anything the caller supplied under
    those keys; [create_prompt] reads that prompt from it; and every key
    other than [prompt_dict], [prompt] and [prefix] is as in the incoming
    request. *)
Theorem X5_model_step_request cls model_kwargs kwargs
    (x : request) (w : W) (prompt prefix : string) :
  _create_prompt x = ok (VPromptDict prompt prefix) ->
  exists y : request,
    create_prompt y = ok (VStr prompt)
    /\ y !! "prefix" = Some (VStr prefix)
    /\ y !! "prompt_dict" = Some (VPromptDict prompt prefix)
    /\ (forall key, key <> "prompt_dict" -> key <> "prompt" -> key <> "prefix" ->
          y !! key = x !! key)
    /\ create_chain cls model_kwargs kwargs x w
       = match Iternlm2Chat7BChatChain_create_chain cls (default ∅ model_kwargs)
                 kwargs y w with
         | (inl e, w') => (inl e, w')
         | (inr v, w') =>
             if from_option truthy false (kwargs !! "stream")
             then (ok (OutGenerator
                         (stream_postprocess_fn (<["llm_output" := v]> y))), w')
             else ((s <- py_add (VStr prefix) v ;;; ok (OutValue s)), w')
         end.
Proof.
  intros Hp. exists (llm_input x prompt prefix). unfold llm_input.
  split; [|split; [|split; [|split]]].
  - unfold create_prompt, dict_getitem.
    rewrite lookup_insert_ne by discriminate. now rewrite lookup_insert_eq.
  - apply lookup_insert_eq.
  - rewrite !lookup_insert_ne by discriminate. apply lookup_insert_eq.
  - intros key H1 H2 H3. now rewrite !lookup_insert_ne by congruence.
  - apply (create_chain_runs cls model_kwargs kwargs x w prompt prefix Hp).
Qed.

(** X8. Built without streaming, the chain raises [TypeError] when the model
    step returns a stream: a string and a stream cannot be added.  The model
    step has run by then. *)
Theorem X8_stream_output_without_streaming cls model_kwargs kwargs
    (x : request) (w w' : W) (prompt prefix : string) (chunks : list string) :
  _create_prompt x = ok (VPromptDict prompt prefix) ->
  from_option truthy false (kwargs !! "stream") = false ->
  Iternlm2Chat7BChatChain_create_chain cls (default ∅ model_kwargs) kwargs
    (llm_input x prompt prefix) w = (ok (VStream chunks), w') ->
  create_chain cls model_kwargs kwargs x w = (raise TypeError, w').
Proof.
  intros Hp Hstream Hllm.
  rewrite (create_chain_runs cls model_kwargs kwargs x w prompt prefix Hp).
  now rewrite Hllm, Hstream.
Qed.

(** The generator run to its end: the value under [prefix], then the items
    of the value under [llm_output]. *)
Lemma consume_items (x : request) (prefix v : value) (items : list value) fuel :
  x !! "prefix" = Some prefix ->
  x !! "llm_output" = Some v ->
  py_iter v = ok items ->
  length items + 2 <= fuel ->
  consume fuel (stream_postprocess_fn x) = Some (ok (prefix :: items)).
Proof.
  intros Hp Hout Hiter Hfuel.
  destruct fuel as [|fuel]; [lia|].
  unfold stream_postprocess_fn. cbn [consume next].
  unfold dict_getitem. rewrite Hp.
  destruct fuel as [|fuel]; [lia|].
  cbn [consume next]. unfold dict_getitem. rewrite Hout.
  cbn [rbind]. rewrite Hiter.
  destruct items as [|c rest]; [reflexivity|].
  rewrite consume_delegating; [reflexivity|]. cbn in Hfuel. lia.
Qed.

Lemma join_cons (c : string) (chunks : list string) :
  join (c :: chunks) = c +:+ join chunks.
Proof. reflexivity. Qed.

(** X6. The two formatters agree: when the model step answers the chunks of
    a stream to the chain built with streaming and their concatenation to
    the chain built without, the chunks the first chain yields, joined, are
    the text the second returns. *)
Theorem X6_streamed_chunks_join_to_plain_output cls model_kwargs
    kwargs_stream kwargs_plain (x : request) (w w1 w2 : W)
    (prompt prefix : string) (chunks : list string) fuel :
  _create_prompt x = ok (VPromptDict prompt prefix) ->
  from_option truthy false (kwargs_stream !! "stream") = true ->
  from_option truthy false (kwargs_plain !! "stream") = false ->
  Iternlm2Chat7BChatChain_create_chain cls (default ∅ model_kwargs) kwargs_stream
    (llm_input x prompt prefix) w = (ok (VStream chunks), w1) ->
  Iternlm2Chat7BChatChain_create_chain cls (default ∅ model_kwargs) kwargs_plain
    (llm_input x prompt prefix) w = (ok (VStr (join chunks)), w2) ->
  length chunks + 2 <= fuel ->
  exists g yielded,
    create_chain cls model_kwargs kwargs_stream x w = (ok (OutGenerator g), w1)
    /\ consume fuel g = Some (ok (VStr <$> yielded))
    /\ create_chain cls model_kwargs kwargs_plain x w
       = (ok (OutValue (VStr (join yielded))), w2).
Proof.
  intros Hp Hs Hn Hllm_s Hllm_n Hfuel.
  exists (stream_postprocess_fn
            (<["llm_output" := VStream chunks]> (llm_input x prompt prefix))),
    (prefix :: chunks).
  split; [|split].
  - rewrite (create_chain_runs cls model_kwargs kwargs_stream x w prompt prefix Hp).
    now rewrite Hllm_s, Hs.
  - rewrite fmap_cons.
    apply (consume_items _ _ (VStream chunks));
      [|apply lookup_insert_eq|reflexivity|now rewrite length_fmap].
    rewrite lookup_insert_ne by discriminate.
    unfold llm_input. apply lookup_insert_eq.
  - rewrite (create_chain_runs cls model_kwargs kwargs_plain x w prompt prefix Hp).
    now rewrite Hllm_n, Hn.
Qed.

(** The characters of a string, joined, are the string. *)
Lemma chars_aux_join (s : string) :
  (chars_aux s).1 +:+ join (chars_aux s).2 = s.
Proof.
  induction s as [|c s IH]; [reflexivity|].
  cbn [chars_aux]. destruct (chars_aux s) as [pending acc]. cbn [fst snd] in IH.
  destruct (is_continuation c); cbn [fst snd].
  - rewrite append_cons. now rewrite IH.
  - rewrite join_cons, append_cons. now rewrite IH.
Qed.

Lemma join_chars (s : string) : join (chars s) = s.
Proof.
  pose proof (chars_aux_join s) as Hs. unfold chars.
  destruct (chars_aux s) as [pending acc]. cbn [fst snd] in Hs.
  destruct pending as [|c pending]; [exact Hs|].
  now rewrite join_cons.
Qed.

(** X7. When the value under [llm_output] is a string and not a stream, the
    streaming formatter yields the prefix and then the string character by
    character; the chunks, joined, are still the prefix followed by the
    string. *)
Theorem X7_string_output_is_streamed_by_character
    (x : request) (prefix out : string) fuel :
  x !! "prefix" = Some (VStr prefix) ->
  x !! "llm_output" = Some (VStr out) ->
  length (chars out) + 2 <= fuel ->
  consume fuel (stream_postprocess_fn x)
  = Some (ok (VStr <$> (prefix :: chars out)))
  /\ join (prefix :: chars out) = prefix +:+ out.
Proof.
  intros Hp Hout Hfuel. split.
  - rewrite fmap_cons.
    apply (consume_items _ _ (VStr out));
      [assumption|assumption|reflexivity|now rewrite length_fmap].
  - now rewrite join_cons, join_chars.
Qed.


(** *** Further properties of the texts and of the pairing *)

(** X10. Question text goes into the numbered list as it is: one question
    that holds a newline and then "问题2: " gives the same list as two
    questions. *)
Theorem X10_numbered_list_copies_text_verbatim (q1 q2 : string) :
  questions_str_of [q1 +:+ nl +:+ "问题2: " +:+ q2] = questions_str_of [q1; q2].
Proof.
  rewrite !questions_str_numbered. cbn [numbered_from].
  rewrite !append_assoc. reflexivity.
Qed.

Lemma length_append (a b : string) :
  String.length (a +:+ b) = String.length a + String.length b.
Proof.
  induction a as [|x a IH]; [reflexivity|].
  rewrite append_cons. cbn [String.length]. now rewrite IH.
Qed.

Lemma append_inj_r (a b c : string) : a +:+ c = b +:+ c -> a = b.
Proof.
  revert b. induction a as [|x a IH]; intros [|y b] Heq.
  - reflexivity.
  - apply (f_equal String.length) in Heq.
    rewrite append_nil_l, append_cons in Heq. cbn [String.length] in Heq.
    rewrite length_append in Heq. lia.
  - apply (f_equal String.length) in Heq.
    rewrite append_nil_l, append_cons in Heq. cbn [String.length] in Heq.
    rewrite length_append in Heq. lia.
  - rewrite !append_cons in Heq. injection Heq as -> Heq.
    f_equal. now apply IH.
Qed.

(** X14. The prefix determines the question it restates: two questions with
    the same prefix are equal. *)
Theorem X14_prefix_determines_question (q q' : string) :
  prefix_of q = prefix_of q' -> q = q'.
Proof.
  unfold prefix_of. intros Heq.
  apply (inj (String.append "问题1: ")) in Heq.
  now apply append_inj_r in Heq.
Qed.

Lemma pairs_of_cons2 (a b : Message) (rest : list Message) :
  pairs_of (a :: b :: rest) = (content a, content b) :: pairs_of rest.
Proof.
  unfold pairs_of. cbn [length].
  replace (S (S (length rest))) with (1 * 2 + length rest) by lia.
  rewrite Nat.div_add_l by lia.
  change (1 + length rest / 2) with (S (length rest / 2)).
  cbn [seq]. rewrite fmap_cons. f_equal.
  rewrite <- fmap_S_seq, <- list_fmap_compose.
  apply list_fmap_ext. intros _ k _. cbn [compose].
  unfold content_at.
  replace (2 * S k) with (S (S (2 * k))) by lia.
  replace (S (S (2 * k)) + 1) with (S (S (2 * k + 1))) by lia.
  reflexivity.
Qed.

Lemma flatten_pairs_of (n : nat) : forall h : list Message,
  length h = 2 * n -> flatten_pairs (pairs_of h) = content <$> h.
Proof.
  induction n as [|n IH]; intros h Hlen.
  - destruct h; [reflexivity|discriminate].
  - destruct h as [|a [|b rest]]; try (cbn in Hlen; lia).
    rewrite pairs_of_cons2. unfold flatten_pairs in *.
    rewrite fmap_cons. cbn [concat fst snd app]. rewrite !fmap_cons.
    f_equal. f_equal. apply IH. cbn in Hlen. lia.
Qed.

(** X15. Whenever the pairing loop succeeds, nothing of the history is lost
    or moved: the pairs, flattened, are the contents of the messages in
    their order, and the questions are the first components of the pairs. *)
Theorem X15_pairing_round_trip (h : list Message)
    (history : list (string * string)) (questions : list string) :
  pair_history h = ok (history, questions) ->
  flatten_pairs history = content <$> h
  /\ questions = history.*1
  /\ length h = 2 * length history.
Proof.
  rewrite pair_history_eq.
  destruct (_ && _) eqn:Hpass; [|discriminate].
  intros [= <- <-].
  destruct (passing_valid h Hpass) as [Heven _].
  pose proof (even_length_half h Heven) as Hlen.
  split; [|split].
  - now apply (flatten_pairs_of (length h / 2)).
  - unfold questions_of, pairs_of. now rewrite <- list_fmap_compose.
  - now rewrite length_pairs_of.
Qed.

End Chains.

(** ** The variants of the Claude family *)

(** C8. The three Claude summary classes have the model identifiers
    anthropic.claude-v2, anthropic.claude-v2:1 and
    anthropic.claude-instant-v1 and are equal in every other attribute.
    With the inherited chat chain as the specification describes it, the
    chain of each class run without overrides invokes the model with
    max_tokens_to_sample 2000, temperature 0.1 and top_p 0.9 and with the
    query instruction of the family; with the temperature overridden, the
    model gets that temperature and still max_tokens_to_sample 2000 and
    top_p 0.9. *)
Theorem C8_claude_variants_share_defaults {W : Type} (intent : string)
    (invoke_model : string -> kwargs_t -> Runnable (W:=W) request output) :
  let family := Claude2MKTConversationSummaryChain intent in
  let defaults : kwargs_t :=
    {[ "max_tokens_to_sample" := KInt 2000;
       "temperature" := KFloat 1 (-1);
       "top_p" := KFloat 9 (-1) ]} in
  let chain :=
    Claude2_create_chain (spec_Claude2ChatChain_create_chain invoke_model) in
  model_id family = "anthropic.claude-v2"
  /\ model_id (Claude21MKTConversationSummaryChain intent) = "anthropic.claude-v2:1"
  /\ model_id (ClaudeInstanceMKTConversationSummaryChain intent)
     = "anthropic.claude-instant-v1"
  /\ Forall (fun cls =>
       cls = {| model_id := model_id cls;
                intent_type := intent_type family;
                default_model_kwargs := defaults |}
       /\ (forall kwargs (x : request) w,
             chain cls None kwargs x w
             = invoke_model (model_id cls) defaults
                 (<["query" := VStr Claude2_query_input]> x) w)
       /\ (forall t kwargs (x : request) w,
             exists params : kwargs_t,
               chain cls (Some {[ "temperature" := t ]}) kwargs x w
               = invoke_model (model_id cls) params
                   (<["query" := VStr Claude2_query_input]> x) w
               /\ params !! "temperature" = Some t
               /\ params !! "max_tokens_to_sample" = Some (KInt 2000)
               /\ params !! "top_p" = Some (KFloat 9 (-1))))
     [family;
      Claude21MKTConversationSummaryChain intent;
      ClaudeInstanceMKTConversationSummaryChain intent].
Proof.
  intros family defaults chain.
  assert (Hvariant : forall cls,
    intent_type cls = intent_type family ->
    default_model_kwargs cls = defaults ->
    cls = {| model_id := model_id cls;
             intent_type := intent_type family;
             default_model_kwargs := defaults |}
    /\ (forall kwargs (x : request) w,
          chain cls None kwargs x w
          = invoke_model (model_id cls) defaults
              (<["query" := VStr Claude2_query_input]> x) w)
    /\ (forall t kwargs (x : request) w,
          exists params : kwargs_t,
            chain cls (Some {[ "temperature" := t ]}) kwargs x w
            = invoke_model (model_id cls) params
                (<["query" := VStr Claude2_query_input]> x) w
            /\ params !! "temperature" = Some t
            /\ params !! "max_tokens_to_sample" = Some (KInt 2000)
            /\ params !! "top_p" = Some (KFloat 9 (-1)))).
  { intros [mid ity dmk] Hity Hdmk. cbn in Hity, Hdmk. subst ity dmk.
    split; [reflexivity|]. split.
    - intros kwargs x w.
      unfold chain, Claude2_create_chain, spec_Claude2ChatChain_create_chain,
        pipe, RunnablePassthrough_assign, assign_fields, RunnableLambda.
      cbn [default model_id default_model_kwargs foldl fst snd].
      now rewrite (left_id_L ∅ (∪)).
    - intros t kwargs x w.
      exists ({[ "temperature" := t ]} ∪ defaults).
      split; [reflexivity|]. split; [|split].
      + apply lookup_union_Some_l, lookup_singleton_eq.
      + rewrite lookup_union_r by (now apply lookup_singleton_ne).
        reflexivity.
      + rewrite lookup_union_r by (now apply lookup_singleton_ne).
        reflexivity. }
  split; [reflexivity|]. split; [reflexivity|]. split; [reflexivity|].
  repeat constructor; apply Hvariant; reflexivity.
Qed.

(** ** Instances *)

Lemma example_history_alternates : alternates "human" "ai" example_history.
Proof.
  intros i m Hi.
  destruct i as [|[|[|[|i]]]]; cbn in Hi; [| | | |discriminate];
    injection Hi as <-; reflexivity.
Qed.

Lemma example_history_even : Nat.Even (length example_history).
Proof. exists 2. reflexivity. Qed.

Lemma odd_history_malformed : malformed "human" "ai" odd_history.
Proof. left. exists 1. reflexivity. Qed.

(** The scenario of C1: [Human "A?"; AI "B."; Human "C?"; AI "D."]. *)
Lemma C1_scenario :
  Nat.Even (length example_history)
  /\ alternates "human" "ai" example_history
  /\ pair_history "human" "ai" example_history
     = ok ([("A?", "B."); ("C?", "D.")], ["A?"; "C?"]).
Proof.
  split; [exact example_history_even|].
  split; [exact example_history_alternates|].
  exact (proj1 (C1_pairing_keeps_order_and_content "human" "ai" example_history
                  example_history_even example_history_alternates)).
Defined.

(** The scenario of C2: a history of length 3 and a model step that counts
    its invocations; the count stays 0. *)
Lemma C2_scenario :
  let x : request := {[ "chat_history" := VMessages odd_history ]} in
  x !! "chat_history" = Some (VMessages odd_history)
  /\ malformed "human" "ai" odd_history
  /\ create_chain "human" "ai" "system" example_build_prompt
       (counting_stub (VStr "summary"))
       (Iternlm2Chat7BMKTConversationSummaryChain "summary" ∅) None ∅ x 0
     = (raise (AssertionError odd_history), 0).
Proof.
  intros x.
  assert (Hx : x !! "chat_history" = Some (VMessages odd_history))
    by apply lookup_singleton_eq.
  split; [exact Hx|]. split; [exact odd_history_malformed|].
  exact (proj2 (proj2 (C2_malformed_history_raises "human" "ai" "system"
                         example_build_prompt (counting_stub (VStr "summary"))
                         (Iternlm2Chat7BMKTConversationSummaryChain "summary" ∅)
                         None ∅ x 0 odd_history Hx odd_history_malformed))).
Defined.

Lemma C3_scenario :
  let x : request := {[ "chat_history" := VMessages example_history ]} in
  x !! "chat_history" = Some (VMessages example_history)
  /\ example_history !! 0 = Some (Human "A?")
  /\ exists prompt,
       _create_prompt "human" "ai" "system" example_build_prompt x
       = ok (VPromptDict prompt ("问题1: A?" +:+ nl +:+ "总结:")).
Proof.
  intros x.
  assert (Hx : x !! "chat_history" = Some (VMessages example_history))
    by apply lookup_singleton_eq.
  split; [exact Hx|]. split; [reflexivity|].
  exact (C3_prefix_restates_first_question "human" "ai" "system"
           example_build_prompt x example_history (Human "A?") Hx
           example_history_even example_history_alternates eq_refl).
Defined.

(** The claim C3 as stated fails at the empty history: it has even length
    and alternates, and no prompt dict, hence no prefix, is made. *)
Lemma C3_empty_history_has_no_prefix :
  let x : request := {[ "chat_history" := VMessages [] ]} in
  Nat.Even (length (@nil Message))
  /\ alternates "human" "ai" []
  /\ forall prompt prefix,
       _create_prompt "human" "ai" "system" example_build_prompt x
       <> ok (VPromptDict prompt prefix).
Proof.
  intros x. split; [exists 0; reflexivity|]. split.
  - intros i m Hi. rewrite lookup_nil in Hi. discriminate.
  - intros prompt prefix.
    rewrite (_create_prompt_eq "human" "ai" "system" example_build_prompt x [])
      by apply lookup_singleton_eq.
    discriminate.
Qed.

Lemma C4_scenario :
  let x : request := {[ "chat_history" := VMessages example_history ]} in
  x !! "chat_history" = Some (VMessages example_history)
  /\ create_chain "human" "ai" "system" example_build_prompt
       (counting_stub (VStr "OUT"))
       (Iternlm2Chat7BMKTConversationSummaryChain "summary" ∅) None ∅ x 0
     = (ok (OutValue (VStr ("问题1: A?" +:+ nl +:+ "总结:" +:+ "OUT"))), 1).
Proof.
  intros x.
  assert (Hx : x !! "chat_history" = Some (VMessages example_history))
    by apply lookup_singleton_eq.
  split; [exact Hx|].
  exact (C4_non_streaming_output "human" "ai" "system" example_build_prompt
           (counting_stub (VStr "OUT"))
           (Iternlm2Chat7BMKTConversationSummaryChain "summary" ∅) None ∅ x 0 1
           example_history (Human "A?") "OUT" Hx
           example_history_even example_history_alternates eq_refl eq_refl eq_refl).
Defined.

(** The claim C4 as stated fails at the empty history: the chain built
    without streaming raises [IndexError] before the model step, so its
    result is not a prefix followed by the text of the model. *)
Lemma C4_empty_history_has_no_output :
  let x : request := {[ "chat_history" := VMessages [] ]} in
  Nat.Even (length (@nil Message))
  /\ alternates "human" "ai" []
  /\ create_chain "human" "ai" "system" example_build_prompt
       (counting_stub (VStr "OUT"))
       (Iternlm2Chat7BMKTConversationSummaryChain "summary" ∅) None ∅ x 0
     = (raise IndexError, 0)
  /\ forall prefix calls,
       create_chain "human" "ai" "system" example_build_prompt
         (counting_stub (VStr "OUT"))
         (Iternlm2Chat7BMKTConversationSummaryChain "summary" ∅) None ∅ x 0
       <> (ok (OutValue (VStr (prefix +:+ "OUT"))), calls).
Proof.
  intros x.
  assert (Hrun : create_chain "human" "ai" "system" example_build_prompt
       (counting_stub (VStr "OUT"))
       (Iternlm2Chat7BMKTConversationSummaryChain "summary" ∅) None ∅ x 0
     = (raise IndexError, 0)).
  { apply create_chain_raises.
    now rewrite (_create_prompt_eq "human" "ai" "system" example_build_prompt x [])
      by apply lookup_singleton_eq. }
  split; [exists 0; reflexivity|]. split.
  - intros i m Hi. rewrite lookup_nil in Hi. discriminate.
  - split; [exact Hrun|]. intros prefix calls. rewrite Hrun. discriminate.
Qed.

(** The scenarios of C5: the formatter on the prefix "P:" and the stream
    "foo", "bar"; and the chain built with streaming on the example
    history. *)
Lemma C5_scenario :
  let x : request :=
    {[ "prefix" := VStr "P:"; "llm_output" := VStream ["foo"; "bar"] ]} in
  let y : request := {[ "chat_history" := VMessages example_history ]} in
  (x !! "prefix" = Some (VStr "P:")
   /\ x !! "llm_output" = Some (VStream ["foo"; "bar"])
   /\ consume 4 (stream_postprocess_fn x)
      = Some (ok [VStr "P:"; VStr "foo"; VStr "bar"]))
  /\ (y !! "chat_history" = Some (VMessages example_history)
      /\ exists g,
           create_chain "human" "ai" "system" example_build_prompt
             (counting_stub (VStream ["foo"; "bar"]))
             (Iternlm2Chat7BMKTConversationSummaryChain "summary" ∅) None
             {[ "stream" := KBool true ]} y 0
           = (ok (OutGenerator g), 1)
           /\ consume 4 g
              = Some (ok [VStr ("问题1: A?" +:+ nl +:+ "总结:");
                          VStr "foo"; VStr "bar"])).
Proof.
  intros x y.
  assert (Hp : x !! "prefix" = Some (VStr "P:")) by reflexivity.
  assert (Ho : x !! "llm_output" = Some (VStream ["foo"; "bar"])) by reflexivity.
  assert (Hy : y !! "chat_history" = Some (VMessages example_history))
    by apply lookup_singleton_eq.
  destruct (C5_streaming_output "human" "ai" "system" example_build_prompt
              (counting_stub (VStream ["foo"; "bar"]))) as [Hfmt Hchain].
  split.
  - split; [exact Hp|]. split; [exact Ho|].
    exact (proj2 (Hfmt x (VStr "P:") ["foo"; "bar"] 4 Hp Ho (le_n 4))).
  - split; [exact Hy|].
    exact (Hchain (Iternlm2Chat7BMKTConversationSummaryChain "summary" ∅) None
             {[ "stream" := KBool true ]} y 0 1 example_history (Human "A?")
             ["foo"; "bar"] 4 Hy example_history_even example_history_alternates
             eq_refl eq_refl eq_refl (le_n 4)).
Defined.

(** The claim C5 as stated fails at the empty history: the chain built with
    streaming raises [IndexError] and returns no sequence of chunks. *)
Lemma C5_empty_history_has_no_stream :
  let y : request := {[ "chat_history" := VMessages [] ]} in
  Nat.Even (length (@nil Message))
  /\ alternates "human" "ai" []
  /\ create_chain "human" "ai" "system" example_build_prompt
       (counting_stub (VStream ["foo"; "bar"]))
       (Iternlm2Chat7BMKTConversationSummaryChain "summary" ∅) None
       {[ "stream" := KBool true ]} y 0
     = (raise IndexError, 0)
  /\ forall g calls,
       create_chain "human" "ai" "system" example_build_prompt
         (counting_stub (VStream ["foo"; "bar"]))
         (Iternlm2Chat7BMKTConversationSummaryChain "summary" ∅) None
         {[ "stream" := KBool true ]} y 0
       <> (ok (OutGenerator g), calls).
Proof.
  intros y.
  assert (Hrun : create_chain "human" "ai" "system" example_build_prompt
       (counting_stub (VStream ["foo"; "bar"]))
       (Iternlm2Chat7BMKTConversationSummaryChain "summary" ∅) None
       {[ "stream" := KBool true ]} y 0
     = (raise IndexError, 0)).
  { apply create_chain_raises.
    now rewrite (_create_prompt_eq "human" "ai" "system" example_build_prompt y [])
      by apply lookup_singleton_eq. }
  split; [exists 0; reflexivity|]. split.
  - intros i m Hi. rewrite lookup_nil in Hi. discriminate.
  - split; [exact Hrun|]. intros g calls. rewrite Hrun. discriminate.
Qed.

Lemma C6_scenario :
  let x : request := {[ "chat_history" := VMessages example_history ]} in
  x !! "chat_history" = Some (VMessages example_history)
  /\ exists history questions prefix,
       pair_history "human" "ai" example_history = ok (history, questions)
       /\ prefix = prefix_of "A?"
       /\ _create_prompt "human" "ai" "system" example_build_prompt x
          = ok (VPromptDict
                  (example_build_prompt "system" history query_input
                     +:+ ("好的，根据提供历史对话信息，共有" +:+ "2" +:+ "段对话:" +:+ nl
                            +:+ numbered_from 1 questions +:+ nl
                            +:+ "对它们的总结如下(每一个总结要先复述一下问题):" +:+ nl)
                     +:+ prefix)
                  prefix).
Proof.
  intros x.
  assert (Hx : x !! "chat_history" = Some (VMessages example_history))
    by apply lookup_singleton_eq.
  split; [exact Hx|].
  exact (C6_prompt_is_block_preamble_prefix "human" "ai" "system"
           example_build_prompt x example_history (Human "A?") Hx
           example_history_even example_history_alternates eq_refl).
Defined.

(** The claim C6 as stated fails at the empty history: prompt construction
    raises [IndexError] and there is no final prompt. *)
Lemma C6_empty_history_has_no_prompt :
  let x : request := {[ "chat_history" := VMessages [] ]} in
  Nat.Even (length (@nil Message))
  /\ alternates "human" "ai" []
  /\ _create_prompt "human" "ai" "system" example_build_prompt x = raise IndexError.
Proof.
  intros x. split; [exists 0; reflexivity|]. split.
  - intros i m Hi. rewrite lookup_nil in Hi. discriminate.
  - now rewrite (_create_prompt_eq "human" "ai" "system" example_build_prompt x [])
      by apply lookup_singleton_eq.
Qed.

(** An instance of C7: the example store, and for the inherited chain one
    that reads the query of its request. *)
Lemma C7_scenario :
  let inherited := fun y => Store.dict_getitem y "query" in
  (forall y (h : Store.store) l o,
      h !! l = Some o -> (inherited y h).2 !! l = Some o)
  /\ (forall l o, example_store !! l = Some o ->
        (Store.Claude2_chain inherited (Store.PRef 1%positive) example_store).2
          !! l = Some o)
  /\ (forall l o, example_store !! l = Some o ->
        (Store._create_prompt "human" "ai" "system" example_build_prompt
           (Store.PRef 1%positive) example_store).2 !! l = Some o).
Proof.
  intros inherited.
  assert (Hinh : forall y (h : Store.store) l o,
             h !! l = Some o -> (inherited y h).2 !! l = Some o).
  { intros y h l o Hl. unfold inherited.
    rewrite (reads_dict_getitem y "query" h). exact Hl. }
  destruct (C7_prompt_construction_keeps_the_store "human" "ai" "system"
              example_build_prompt example_store (Store.PRef 1%positive))
    as (Hcp & _ & Hchain).
  split; [exact Hinh|]. split; [exact (Hchain inherited Hinh)|exact (proj1 Hcp)].
Defined.

Lemma C9_scenario :
  let x : request := {[ "chat_history" := VMessages [] ]} in
  x !! "chat_history" = Some (VMessages [])
  /\ _create_prompt "human" "ai" "system" example_build_prompt x = raise IndexError
  /\ create_chain "human" "ai" "system" example_build_prompt
       (counting_stub (VStr "summary"))
       (Iternlm2Chat7BMKTConversationSummaryChain "summary" ∅) None ∅ x 0
     = (raise IndexError, 0).
Proof.
  intros x.
  assert (Hx : x !! "chat_history" = Some (VMessages []))
    by apply lookup_singleton_eq.
  destruct (C9_empty_history_raises_index_error "human" "ai" "system"
              example_build_prompt (counting_stub (VStr "summary"))
              (Iternlm2Chat7BMKTConversationSummaryChain "summary" ∅) None ∅ x 0 Hx)
    as (_ & _ & Hraise & _ & Hchain).
  split; [exact Hx|]. split; [exact Hraise|exact Hchain].
Defined.

(** [_create_prompt] run on the example store: the lists of the loop are made
    at 5 and 6, and the result is the new dict at 7. *)
Example store_run_example :
  let run := Store._create_prompt "human" "ai" "system" example_build_prompt
               (Store.PRef 1%positive) example_store in
  run.1 = ok (Store.PRef 7%positive)
  /\ run.2 !! 5%positive
     = Some (Store.OList [Store.PTuple2 (Store.PStr "A?") (Store.PStr "B.")])
  /\ run.2 !! 6%positive = Some (Store.OList [Store.PStr "A?"])
  /\ run.2 !! 7%positive
     = Some (Store.ODict
               {[ "prompt" := Store.PStr
                    (prompt_of "system" example_build_prompt
                       [Human "A?"; AI "B."] (Human "A?"));
                  "prefix" := Store.PStr (prefix_of "A?") ]}).
Proof. vm_compute. repeat split. Qed.

(** An instance of [store_create_prompt_refines], on the example store. *)
Lemma store_refines_scenario :
  let x : request := {[ "chat_history" := VMessages [Human "A?"; AI "B."] ]} in
  Store.holds_messages example_store (Store.PRef 2%positive) [Human "A?"; AI "B."]
  /\ exists l prompt prefix,
       _create_prompt "human" "ai" "system" example_build_prompt x
       = ok (VPromptDict prompt prefix)
       /\ (Store._create_prompt "human" "ai" "system" example_build_prompt
             (Store.PRef 1%positive) example_store).1 = ok (Store.PRef l)
       /\ (Store._create_prompt "human" "ai" "system" example_build_prompt
             (Store.PRef 1%positive) example_store).2 !! l
          = Some (Store.ODict {[ "prompt" := Store.PStr prompt;
                                 "prefix" := Store.PStr prefix ]}).
Proof.
  intros x.
  assert (Hmsgs : Store.holds_messages example_store (Store.PRef 2%positive)
                    [Human "A?"; AI "B."]).
  { exists 2%positive, [3%positive; 4%positive].
    split; [reflexivity|]. split; [reflexivity|].
    repeat constructor. }
  split; [exact Hmsgs|].
  pose proof (store_create_prompt_refines "human" "ai" "system"
                example_build_prompt example_store 1%positive
                {[ "chat_history" := Store.PRef 2%positive;
                   "query" := Store.PStr "supplied" ]}
                (Store.PRef 2%positive) [Human "A?"; AI "B."] x
                eq_refl eq_refl Hmsgs (lookup_singleton_eq _ _)) as Href.
  cbn zeta in Href.
  destruct (_create_prompt "human" "ai" "system" example_build_prompt x)
    as [e|[s|m|msgs|prompt prefix|chunks]] eqn:Hrun;
    try discriminate Hrun; try contradiction.
  destruct Href as (l & Hl & _ & Hnew). eauto 8.
Defined.

(** ** Further properties: invocations of the model step, the classes *)

(** X4. The chain runs the model step once when prompt construction
    succeeds and never when it raises: with the model step instrumented by a
    counter, the result and the state are those of the chain without the
    counter, and the counter goes up by one or stays. *)
Theorem X4_model_step_runs_once_or_never {W : Type}
    (HUMAN_MESSAGE_TYPE AI_MESSAGE_TYPE CHIT_CHAT_SYSTEM_TEMPLATE : string)
    (build_prompt : string -> list (string * string) -> string -> string)
    (llm : ChainClass -> kwargs_t -> kwargs_t -> Runnable (W:=W) request value)
    cls model_kwargs kwargs (x : request) (w : W) (calls : nat) :
  let plain :=
    create_chain HUMAN_MESSAGE_TYPE AI_MESSAGE_TYPE CHIT_CHAT_SYSTEM_TEMPLATE
      build_prompt llm cls model_kwargs kwargs x w in
  let run :=
    create_chain (W:=W * nat) HUMAN_MESSAGE_TYPE AI_MESSAGE_TYPE
      CHIT_CHAT_SYSTEM_TEMPLATE build_prompt
      (fun c m k => counted (llm c m k)) cls model_kwargs kwargs x (w, calls) in
  run.1 = plain.1
  /\ run.2.1 = plain.2
  /\ run.2.2
     = match _create_prompt HUMAN_MESSAGE_TYPE AI_MESSAGE_TYPE
               CHIT_CHAT_SYSTEM_TEMPLATE build_prompt x with
       | inl _ => calls
       | inr _ => S calls
       end.
Proof.
  cbn zeta.
  destruct (_create_prompt HUMAN_MESSAGE_TYPE AI_MESSAGE_TYPE
              CHIT_CHAT_SYSTEM_TEMPLATE build_prompt x) as [e|v] eqn:Hp.
  - rewrite !(create_chain_raises _ _ _ _ _ _ _ _ _ _ e Hp). repeat split.
  - destruct (_create_prompt_ok_inv _ _ _ _ x v Hp) as (body & question & ->).
    rewrite !(create_chain_runs _ _ _ _ _ _ _ _ _ _ _ _ Hp).
    unfold counted. cbn [fst snd].
    destruct (llm cls (default ∅ model_kwargs) kwargs _ w) as [[e|v] w'];
      [repeat split|].
    destruct (from_option truthy false (kwargs !! "stream")); repeat split.
Qed.

(** X13. The five classes of the module have pairwise distinct model
    identifiers and one intent type. *)
Theorem X13_model_ids_are_distinct (intent : string) (defaults : kwargs_t) :
  let classes :=
    [Iternlm2Chat7BMKTConversationSummaryChain intent defaults;
     Iternlm2Chat20BMKTConversationSummaryChain intent defaults;
     Claude2MKTConversationSummaryChain intent;
     Claude21MKTConversationSummaryChain intent;
     ClaudeInstanceMKTConversationSummaryChain intent] in
  NoDup (model_id <$> classes)
  /\ Forall (fun cls => intent_type cls = intent) classes.
Proof.
  intros classes. split.
  - cbn. apply (bool_decide_unpack _). vm_compute. exact I.
  - repeat constructor.
Qed.

(** ** Instances of the further properties *)

Lemma example_prompt_dict :
  _create_prompt "human" "ai" "system" example_build_prompt
    {[ "chat_history" := VMessages example_history ]}
  = ok (VPromptDict
          (prompt_of "system" example_build_prompt example_history (Human "A?"))
          (prefix_of "A?")).
Proof.
  apply (_create_prompt_valid "human" "ai" "system" example_build_prompt _
           example_history (Human "A?"));
    [apply lookup_singleton_eq | exact example_history_even
    | exact example_history_alternates | reflexivity].
Qed.

Lemma X1_scenario :
  let x : request := {[ "chat_history" := VMessages example_history ]} in
  x !! "chat_history" = Some (VMessages example_history)
  /\ exists prompt prefix,
       _create_prompt "human" "ai" "system" example_build_prompt x
       = ok (VPromptDict prompt prefix).
Proof.
  intros x.
  assert (Hx : x !! "chat_history" = Some (VMessages example_history))
    by apply lookup_singleton_eq.
  split; [exact Hx|].
  destruct (X1_create_prompt_outcomes "human" "ai" "system" example_build_prompt
              x example_history Hx) as [Hok _].
  apply Hok. split; [exact example_history_even|].
  split; [exact example_history_alternates|discriminate].
Defined.

Lemma X2_scenario :
  (∅ : request) !! "chat_history" = None
  /\ create_chain "human" "ai" "system" example_build_prompt
       (counting_stub (VStr "summary"))
       (Iternlm2Chat7BMKTConversationSummaryChain "summary" ∅) None ∅ ∅ 0
     = (raise (KeyError "chat_history"), 0).
Proof.
  split; [reflexivity|].
  exact (proj2 (X2_missing_chat_history "human" "ai" "system" example_build_prompt
                  (counting_stub (VStr "summary"))
                  (Iternlm2Chat7BMKTConversationSummaryChain "summary" ∅)
                  None ∅ ∅ 0 eq_refl)).
Defined.

Lemma X3_scenario :
  create_chain "human" "ai" "system" example_build_prompt
    (failing_stub TypeError)
    (Iternlm2Chat7BMKTConversationSummaryChain "summary" ∅) None ∅
    {[ "chat_history" := VMessages example_history ]} 0
  = (raise TypeError, 1).
Proof.
  exact (X3_model_exception_propagates "human" "ai" "system" example_build_prompt
           (failing_stub TypeError)
           (Iternlm2Chat7BMKTConversationSummaryChain "summary" ∅) None ∅
           {[ "chat_history" := VMessages example_history ]} 0 1 _ _ TypeError
           example_prompt_dict eq_refl).
Defined.

Lemma X5_scenario :
  let x : request :=
    {[ "chat_history" := VMessages example_history; "prompt" := VStr "supplied" ]} in
  x !! "prompt" = Some (VStr "supplied")
  /\ exists y : request,
       create_prompt y
       = ok (VStr (prompt_of "system" example_build_prompt example_history
                     (Human "A?")))
       /\ y !! "chat_history" = Some (VMessages example_history).
Proof.
  intros x.
  assert (Hp : _create_prompt "human" "ai" "system" example_build_prompt x
               = ok (VPromptDict
                       (prompt_of "system" example_build_prompt example_history
                          (Human "A?"))
                       (prefix_of "A?"))).
  { apply (_create_prompt_valid "human" "ai" "system" example_build_prompt _
             example_history (Human "A?"));
      [reflexivity | exact example_history_even
      | exact example_history_alternates | reflexivity]. }
  split; [reflexivity|].
  destruct (X5_model_step_request "human" "ai" "system" example_build_prompt
              (counting_stub (VStr "summary"))
              (Iternlm2Chat7BMKTConversationSummaryChain "summary" ∅) None ∅
              x 0 _ _ Hp) as (y & Hy & _ & _ & Hkeys & _).
  exists y. split; [exact Hy|].
  rewrite Hkeys by discriminate. reflexivity.
Defined.

Lemma X6_scenario :
  let x : request := {[ "chat_history" := VMessages example_history ]} in
  exists g yielded,
    create_chain "human" "ai" "system" example_build_prompt mode_stub
      (Iternlm2Chat7BMKTConversationSummaryChain "summary" ∅) None
      {[ "stream" := KBool true ]} x 0 = (ok (OutGenerator g), 1)
    /\ consume 4 g = Some (ok (VStr <$> yielded))
    /\ create_chain "human" "ai" "system" example_build_prompt mode_stub
         (Iternlm2Chat7BMKTConversationSummaryChain "summary" ∅) None ∅ x 0
       = (ok (OutValue (VStr (join yielded))), 1).
Proof.
  intros x.
  exact (X6_streamed_chunks_join_to_plain_output "human" "ai" "system"
           example_build_prompt mode_stub
           (Iternlm2Chat7BMKTConversationSummaryChain "summary" ∅) None
           {[ "stream" := KBool true ]} ∅ x 0 1 1 _ _ ["foo"; "bar"] 4
           example_prompt_dict eq_refl eq_refl eq_refl eq_refl (le_n 4)).
Defined.

Lemma X7_scenario :
  let x : request := {[ "prefix" := VStr "P:"; "llm_output" := VStr "问题" ]} in
  consume 4 (stream_postprocess_fn x)
  = Some (ok [VStr "P:"; VStr "问"; VStr "题"]).
Proof.
  intros x.
  exact (proj1 (X7_string_output_is_streamed_by_character x "P:" "问题" 4
                  eq_refl eq_refl (le_n 4))).
Defined.

Lemma X8_scenario :
  create_chain "human" "ai" "system" example_build_prompt
    (counting_stub (VStream ["foo"; "bar"]))
    (Iternlm2Chat7BMKTConversationSummaryChain "summary" ∅) None ∅
    {[ "chat_history" := VMessages example_history ]} 0
  = (raise TypeError, 1).
Proof.
  exact (X8_stream_output_without_streaming "human" "ai" "system"
           example_build_prompt (counting_stub (VStream ["foo"; "bar"]))
           (Iternlm2Chat7BMKTConversationSummaryChain "summary" ∅) None ∅
           {[ "chat_history" := VMessages example_history ]} 0 1 _ _
           ["foo"; "bar"] example_prompt_dict eq_refl eq_refl).
Defined.


Lemma X11_scenario :
  exists body,
    prompt_of "system" example_build_prompt example_history (Human "A?")
    = body +:+ prefix_of "A?".
Proof.
  destruct (X11_prompt_ends_with_prefix "human" "ai" "system" example_build_prompt
              _ _ _ example_prompt_dict) as (body & Hbody & _).
  exists body. exact Hbody.
Defined.

Lemma X14_scenario :
  prefix_of "A?" = prefix_of ("A" +:+ "?") /\ "A?" = "A" +:+ "?".
Proof.
  split; [reflexivity|].
  exact (X14_prefix_determines_question "A?" ("A" +:+ "?") eq_refl).
Defined.

Lemma X15_scenario :
  pair_history "human" "ai" example_history
  = ok ([("A?", "B."); ("C?", "D.")], ["A?"; "C?"])
  /\ flatten_pairs [("A?", "B."); ("C?", "D.")] = content <$> example_history.
Proof.
  assert (Hrun : pair_history "human" "ai" example_history
                 = ok ([("A?", "B."); ("C?", "D.")], ["A?"; "C?"])) by reflexivity.
  split; [exact Hrun|].
  exact (proj1 (X15_pairing_round_trip "human" "ai" example_history _ _ Hrun)).
Defined.
